(** * bls-employment: get_employment.py

    A shallow embedding of [src/get_employment.py] and the properties of its
    identifier mapping, its table assembler and its chunked fetcher.

    Python values are modelled as the code uses them: [str] as [string],
    [int] as [Z], lists as [list], [dict] as an insertion-ordered association
    list, [None] as the [None] of [option].  Exceptions and the two [while]
    loops are explicit: a computation ends in [Done], [Raised] or, for a
    loop that was not given enough fuel, [Timeout]. *)

From Stdlib Require Import ZArith List String Ascii Bool Lia DecimalString.
From Stdlib Require Import Sorted Permutation.
Import ListNotations.

Local Open Scope string_scope.
Local Open Scope Z_scope.

(** ** Python built-ins used by the module *)

Module Py.

(** The argument of [fips_to_id] is passed through [str]: the module calls it
    with strings ([x.fips]) and, in its commented-out example, with ints. *)
Inductive value : Type :=
| Str (s : string)
| Int (z : Z).

(** [str(v)] *)
Definition str (v : value) : string :=
  match v with
  | Str s => s
  | Int z => NilZero.string_of_int (Z.to_int z)
  end.

(** [len(s)] as a [nat]. *)
Definition slen (s : string) : nat := String.length s.

(** A run of [n] characters ["0"]. *)
Fixpoint zeros (n : nat) : string :=
  match n with
  | O => ""
  | S k => String "0" (zeros k)
  end.

(** [s.zfill(width)]: a string at least [width] long is returned as it is;
    a shorter one is padded with zeros on the left, after a leading sign. *)
Definition zfill (width : nat) (s : string) : string :=
  if (width <=? slen s)%nat then s
  else
    let fill := zeros (width - slen s) in
    match s with
    | String c rest =>
        if (Ascii.eqb c "+" || Ascii.eqb c "-")%bool
        then String c (fill ++ rest)
        else fill ++ s
    | EmptyString => fill
    end.

(** [s.replace(old, new)], all occurrences, scanned from the left.  [skip]
    counts the characters of an occurrence still to be dropped. *)
Fixpoint replace_from (old new : string) (skip : nat) (s : string) : string :=
  match s with
  | EmptyString => ""
  | String c rest =>
      match skip with
      | S k => replace_from old new k rest
      | O =>
          if String.prefix old s
          then new ++ replace_from old new (slen old - 1) rest
          else String c (replace_from old new 0 rest)
      end
  end.

(** With an empty [old], Python puts [new] before every character and at
    the end. *)
Fixpoint intersperse (new s : string) : string :=
  match s with
  | EmptyString => new
  | String c rest => new ++ String c (intersperse new rest)
  end.

Definition replace (old new s : string) : string :=
  match old with
  | EmptyString => intersperse new s
  | _ => replace_from old new 0 s
  end.

(** [sep.join(parts)] *)
Definition join (sep : string) (parts : list string) : string :=
  String.concat sep parts.

(** *** The fragment of [re] that the module's pattern uses

    A pattern is a sequence of single-character matchers with one capture
    group; [{2}] is written out as a repetition of the class. *)
Inductive token : Type :=
| Chr (c : ascii)
| Range (lo hi : ascii)
| GroupOpen
| GroupClose.

Definition in_range (lo hi c : ascii) : bool :=
  ((nat_of_ascii lo <=? nat_of_ascii c)%nat
   && (nat_of_ascii c <=? nat_of_ascii hi)%nat)%bool.

Fixpoint literal (s : string) : list token :=
  match s with
  | EmptyString => []
  | String c rest => Chr c :: literal rest
  end.

(** [run p s capturing grp]: match [p] at the start of [s]; the characters
    consumed while the group is open are collected in [grp].  The match ends
    when the pattern ends: what is left of [s] is not looked at. *)
Fixpoint run (p : list token) (s : string) (capturing : bool) (grp : string)
  : option string :=
  match p with
  | [] => Some grp
  | GroupOpen :: p' => run p' s true ""
  | GroupClose :: p' => run p' s false grp
  | Chr c :: p' =>
      match s with
      | String a rest =>
          if Ascii.eqb a c
          then run p' rest capturing
                   (if capturing then grp ++ String a "" else grp)
          else None
      | EmptyString => None
      end
  | Range lo hi :: p' =>
      match s with
      | String a rest =>
          if in_range lo hi a
          then run p' rest capturing
                   (if capturing then grp ++ String a "" else grp)
          else None
      | EmptyString => None
      end
  end.

(** [re.match(p, s)] followed by [.group(1)] on a match. *)
Definition re_match_group1 (p : list token) (s : string) : option string :=
  run p s false "".

End Py.

(** ** Identifier mapping *)

Definition series_prefix : string := "SMS".
Definition series_suffix : string := "000000000000001".

(** [fips_to_id(st)] *)
Definition fips_to_id (st : Py.value) : string :=
  series_prefix ++ Py.zfill 2 (Py.str st) ++ series_suffix.

(** The pattern ["SMS([0-9]{2})000000000000001"]. *)
Definition series_pattern : list Py.token :=
  Py.literal "SMS"
  ++ [Py.GroupOpen] ++ repeat (Py.Range "0" "9") 2 ++ [Py.GroupClose]
  ++ Py.literal "000000000000001".

(** [id_to_fips(series_id)] *)
Definition id_to_fips (series_id : string) : option string :=
  match Py.re_match_group1 series_pattern series_id with
  | Some g => Some g
  | None => None
  end.

(** A decimal digit. *)
Definition is_digit (c : ascii) : bool := Py.in_range "0" "9" c.

(** The fixed format in the words of the specification: the literal prefix,
    exactly two digits, the literal suffix, and nothing else. *)
Definition well_formed_id (s : string) : Prop :=
  exists d1 d2 : ascii,
    is_digit d1 = true /\ is_digit d2 = true /\
    s = series_prefix ++ String d1 (String d2 "") ++ series_suffix.

(** What the pattern accepts: a well-formed identifier followed by
    anything. *)
Definition starts_with_id (s : string) : Prop :=
  exists (d1 d2 : ascii) (rest : string),
    is_digit d1 = true /\ is_digit d2 = true /\
    s = series_prefix ++ String d1 (String d2 "") ++ series_suffix ++ rest.

(** A valid region code: two decimal digits. *)
Definition valid_code (c : string) : Prop :=
  exists d1 d2 : ascii,
    is_digit d1 = true /\ is_digit d2 = true /\ c = String d1 (String d2 "").

(** Deleting every occurrence of one character, in the words of the
    period-key claim. *)
Fixpoint delete_char (m : ascii) (s : string) : string :=
  match s with
  | EmptyString => ""
  | String c rest =>
      if Ascii.eqb c m then delete_char m rest
      else String c (delete_char m rest)
  end.

(** [len(l)] *)
Definition len {A : Type} (l : list A) : Z := Z.of_nat (List.length l).

(** A slice bound is clamped to [0, len]; a negative one counts from the
    end. *)
Definition clamp (n i : Z) : Z :=
  if i <? 0 then Z.max (i + n) 0 else Z.min i n.

(** [l[a:b]] *)
Definition slice {A : Type} (l : list A) (a b : Z) : list A :=
  let a' := clamp (len l) a in
  let b' := clamp (len l) b in
  firstn (Z.to_nat (b' - a')) (skipn (Z.to_nat a') l).

(** ** Exceptions and results *)

Inductive exn : Type :=
| TypeError
| AttributeError
| ValueError
| IndexError.

(** What a call without a [while] loop ends in. *)
Inductive outcome (A : Type) : Type :=
| Ret (a : A)
| Raise (e : exn).
Arguments Ret {A} a.
Arguments Raise {A} e.

(** What a call with a [while] loop ends in; [Timeout] is the model's
    answer when the fuel it was given does not reach the end of the loop. *)
Inductive result (A : Type) : Type :=
| Done (a : A)
| Raised (e : exn)
| Timeout.
Arguments Done {A} a.
Arguments Raised {A} e.
Arguments Timeout {A}.

Definition lift {A : Type} (o : outcome A) : result A :=
  match o with
  | Ret a => Done a
  | Raise e => Raised e
  end.

Definition obind {A B : Type} (o : outcome A) (k : A -> outcome B) : outcome B :=
  match o with
  | Ret a => k a
  | Raise e => Raise e
  end.

Definition rbind {A B : Type} (r : result A) (k : A -> result B) : result B :=
  match r with
  | Done a => k a
  | Raised e => Raised e
  | Timeout => Timeout
  end.

Declare Scope py_scope.
Delimit Scope py_scope with py.
Notation "x <- c ;; k" := (rbind c (fun x => k))
  (at level 61, c at next level, right associativity) : py_scope.
Notation "' p <- c ;; k" := (rbind c (fun p => k))
  (at level 61, p pattern, c at next level, right associativity) : py_scope.

(** [range(start, stop)] *)
Record range : Type := { range_start : Z; range_stop : Z }.

Definition range_len (r : range) : Z :=
  Z.max 0 (range_stop r - range_start r).

(** [r[i]]: a negative index counts from the end, an index out of range
    raises [IndexError]. *)
Definition range_getitem (r : range) (i : Z) : outcome Z :=
  let j := if i <? 0 then i + range_len r else i in
  if ((0 <=? j) && (j <? range_len r))%bool
  then Ret (range_start r + j)
  else Raise IndexError.

(** ** Dictionaries, in insertion order *)

Definition dict (V : Type) : Type := list (string * V).

Fixpoint dict_get {V : Type} (k : string) (d : dict V) : option V :=
  match d with
  | [] => None
  | (k', v) :: d' => if String.eqb k k' then Some v else dict_get k d'
  end.

(** [d[k] = v]: an existing key keeps its place, a new one goes last. *)
Fixpoint dict_set {V : Type} (k : string) (v : V) (d : dict V) : dict V :=
  match d with
  | [] => [(k, v)]
  | (k', v') :: d' =>
      if String.eqb k k' then (k, v) :: d' else (k', v') :: dict_set k v d'
  end.

(** ** The data of one remote call *)

(** The JSON body of the request. *)
Record request : Type := {
  seriesid : list string;
  registrationkey : string;
  startyear : string;
  endyear : string
}.

(** One observation of a series. *)
Record item : Type := {
  year : string;
  period : string;
  value : string
}.

Record series : Type := {
  seriesID : string;
  data : list item
}.

(** The decoded response: [json_data['Results']] either has a ['series']
    list or has none.  The other keys that the code reads are fields here,
    so a response without them is not a value of this type. *)
Record response : Type := {
  Results_series : option (list series)
}.

(** An entry of [us.states]. *)
Record State : Type := {
  abbr : string;
  fips : string
}.

(** A row under construction: ["state"], ["fips"] and one entry per
    period.  The ["fips"] cell holds what [id_to_fips] returned, which may
    be [None]. *)
Definition row : Type := dict (option string).

(** ** What the run does, in order

    [Group g]: the outer loop has computed [request_fips = g].
    [Call l s e]: [download_employment_data(l, s, e)] has posted its
    request. *)
Inductive event : Type :=
| Group (request_fips : list string)
| Call (fips_list : list Py.value) (start_year end_year : Z).

Definition trace : Type := list event.

Definition groups_of (tr : trace) : list (list string) :=
  flat_map (fun e => match e with Group g => [g] | Call _ _ _ => [] end) tr.

Definition calls_of (tr : trace) : list (list Py.value * (Z * Z)) :=
  flat_map (fun e => match e with
                     | Group _ => []
                     | Call l s e => [(l, (s, e))]
                     end) tr.

(** The year windows requested, as (start year, end year) of each call. *)
Definition windows_of (tr : trace) : list (Z * Z) := map snd (calls_of tr).

(** ** The libraries the module imports

    [pandas] and [us] are not part of the repository: their operations on
    real frames and states are taken as they come.  What the module does
    with [None] around them is written out below. *)

(** The three [pandas] operations used, on frames that exist. *)
Record pandas (DataFrame : Type) : Type := {
  (** [pd.DataFrame(rows).transpose()] *)
  DataFrame_T : dict row -> DataFrame;
  (** [left.join(right, rsuffix="_chk")] *)
  join_chk : DataFrame -> DataFrame -> outcome DataFrame;
  (** [pd.concat(frames)] for a non-empty list of frames *)
  concat_frames : list DataFrame -> outcome DataFrame
}.
Arguments DataFrame_T {DataFrame} _ _.
Arguments join_chk {DataFrame} _ _ _.
Arguments concat_frames {DataFrame} _ _.

(** [us.states]: the static list of states and [lookup], which is handed
    whatever [id_to_fips] returned. *)
Record us_states : Type := {
  STATES : list State;
  lookup : option string -> outcome (option State)
}.

Section GetEmployment.

Context {DataFrame : Type}.
Variable pd : pandas DataFrame.
Variable us : us_states.
(** [config.API_KEY] *)
Variable API_KEY : string.
(** [requests.post] to the fixed endpoint followed by [json.loads]. *)
Variable post : request -> response.

(** *** Table assembler *)

(** The period key of one observation:
    ["-".join([item['year'], item['period'].replace("M","")])]. *)
Definition year_period (it : item) : string :=
  Py.join "-" [year it; Py.replace "M" "" (period it)].

(** The body of the inner [for] loop.  [lookup] gets what [id_to_fips]
    returned, [None] included; [state.abbr] fails on a [None] state.  The
    row [r] is the one under [series_id], made first if there is none. *)
Definition item_step (series_id : string) (rows : dict row) (it : item)
  : outcome (dict row) :=
  let fips := id_to_fips series_id in
  obind (lookup us fips) (fun state =>
  match state with
  | None => Raise AttributeError
  | Some state =>
      let st_abbr := abbr state in
      let year_period := year_period it in
      let value := value it in
      let r :=
        match dict_get series_id rows with
        | Some r => r
        | None => [("state", Some st_abbr); ("fips", fips)]
        end in
      Ret (dict_set series_id (dict_set year_period (Some value) r) rows)
  end).

(** [for item in series['data']] *)
Fixpoint for_items (series_id : string) (items : list item) (rows : dict row)
  : outcome (dict row) :=
  match items with
  | [] => Ret rows
  | it :: items' =>
      obind (item_step series_id rows it) (for_items series_id items')
  end.

(** [for series in json_data['Results']['series']] *)
Fixpoint for_series (l : list series) (rows : dict row) : outcome (dict row) :=
  match l with
  | [] => Ret rows
  | s :: l' => obind (for_items (seriesID s) (data s) rows) (for_series l')
  end.

(** The JSON body built from the arguments. *)
Definition request_of (fips_list : list Py.value) (start_year end_year : Z)
  : request :=
  {| seriesid := map fips_to_id fips_list;
     registrationkey := API_KEY;
     startyear := Py.str (Py.Int start_year);
     endyear := Py.str (Py.Int end_year) |}.

(** [download_employment_data(fips_list, start_year, end_year)] *)
Definition download_employment_data
    (fips_list : list Py.value) (start_year end_year : Z) (tr : trace)
  : outcome (option DataFrame * trace) :=
  let data := request_of fips_list start_year end_year in
  let tr := (tr ++ [Call fips_list start_year end_year])%list in
  let json_data := post data in
  match Results_series json_data with
  | None => Ret (None, tr)
  | Some l =>
      obind (for_series l [])
            (fun rows => Ret (Some (DataFrame_T pd rows), tr))
  end.

(** *** Chunked fetcher *)

(** [year_frame.join(other, rsuffix="_chk")], where [other] may be [None]:
    pandas takes anything that is not a frame or a series for a list of
    frames and fails on [None], which it cannot iterate over (later
    versions refuse the suffix first; the call raises either way). *)
Definition join (year_frame : DataFrame) (other : option DataFrame)
  : outcome DataFrame :=
  match other with
  | Some year_chunk => join_chk pd year_frame year_chunk
  | None => Raise TypeError
  end.

(** The [if year_frame is None: ... else: ...] of the inner loop. *)
Definition merge_year_chunk (year_frame year_chunk : option DataFrame)
  : outcome (option DataFrame) :=
  match year_frame with
  | None => Ret year_chunk
  | Some f => obind (join f year_chunk) (fun f' => Ret (Some f'))
  end.

(** The frames among [objs], [None] dropped. *)
Definition frames_of (objs : list (option DataFrame)) : list DataFrame :=
  flat_map (fun o => match o with Some f => [f] | None => [] end) objs.

(** [pd.concat(objs)]: an empty list is refused, [None] entries are
    dropped, and a list of nothing but [None] is refused. *)
Definition concat (objs : list (option DataFrame)) : outcome DataFrame :=
  match objs with
  | [] => Raise ValueError
  | _ =>
      match frames_of objs with
      | [] => Raise ValueError
      | fs => concat_frames pd fs
      end
  end.

Section Loops.

(** The two limits, local constants of the function. *)
Variables fips_interval year_interval : Z.
Variable fips_codes : list string.
Variable years : range.

(** [while year_index < len(years)], for one [request_fips]. *)
Fixpoint year_loop (fuel : nat) (request_fips : list string)
    (year_index : Z) (year_frame : option DataFrame) (tr : trace)
  : result (Z * option DataFrame * trace) :=
  match fuel with
  | O => Timeout
  | S fuel' =>
      if year_index <? range_len years then
        (request_start_year <- lift (range_getitem years year_index) ;;
         request_end_year <-
           lift (range_getitem years
                   (Z.min (range_len years - 1)
                          (year_index + year_interval - 1))) ;;
         let year_index := year_index + year_interval in
         '(year_chunk, tr) <-
           lift (download_employment_data (map Py.Str request_fips)
                   request_start_year request_end_year tr) ;;
         year_frame <- lift (merge_year_chunk year_frame year_chunk) ;;
         year_loop fuel' request_fips year_index year_frame tr)%py
      else Done (year_index, year_frame, tr)
  end.

(** [while fips_index < len(fips_codes)]; [year_index] is carried from one
    round to the next, as in the source, where it is set once before the
    loop. *)
Fixpoint fips_loop (year_fuel fuel : nat) (fips_index year_index : Z)
    (fips_frames : list (option DataFrame)) (tr : trace)
  : result (list (option DataFrame) * trace) :=
  match fuel with
  | O => Timeout
  | S fuel' =>
      if fips_index <? len fips_codes then
        let request_fips :=
          slice fips_codes fips_index
                (Z.min (fips_index + fips_interval) (len fips_codes - 1)) in
        let tr := (tr ++ [Group request_fips])%list in
        let year_frame : option DataFrame := None in
        ('(year_index, year_frame, tr) <-
           year_loop year_fuel request_fips year_index year_frame tr ;;
         let fips_frames := (fips_frames ++ [year_frame])%list in
         let fips_index := fips_index + fips_interval in
         fips_loop year_fuel fuel' fips_index year_index fips_frames tr)%py
      else Done (fips_frames, tr)
  end.

End Loops.

(** [download_all_employment_data(start_year, end_year)] with the two limits
    as parameters; [fuel] bounds the rounds of each loop. *)
Definition download_all_employment_data_with
    (fips_interval year_interval : Z) (fuel : nat) (start_year end_year : Z)
  : result (DataFrame * trace) :=
  let fips_codes := map fips (STATES us) in
  let years := {| range_start := start_year; range_stop := end_year |} in
  let fips_index := 0 in
  let year_index := 0 in
  ('(fips_frames, tr) <-
     fips_loop fips_interval year_interval fips_codes years
               fuel fuel fips_index year_index [] [] ;;
   df <- lift (concat fips_frames) ;;
   Done (df, tr))%py.

(** The function as it is in the source: 50 states and 20 years per call. *)
Definition download_all_employment_data (fuel : nat) (start_year end_year : Z)
  : result (DataFrame * trace) :=
  download_all_employment_data_with 50 20 fuel start_year end_year.

End GetEmployment.

(** ** Executable stand-ins for the imported libraries

    Enough of [pandas], [us] and the remote service to run the fetcher on
    concrete inputs.  The general theorems below do not depend on them. *)

Module Stub.

(** A frame as its rows; a cell that is missing is NaN. *)
Definition frame : Type := dict row.

Fixpoint add_new (c : string) (cs : list string) : list string :=
  match cs with
  | [] => [c]
  | c' :: cs' => if String.eqb c c' then cs else c' :: add_new c cs'
  end.

(** The column labels of a frame. *)
Definition columns (f : frame) : list string :=
  fold_left (fun cs kr => fold_left (fun cs cv => add_new (fst cv) cs) (snd kr) cs)
            f [].

Definition has_column (f : frame) (c : string) : bool :=
  existsb (String.eqb c) (columns f).

(** A left join on the row label; a column of the right frame whose label
    the left frame has too gets the suffix. *)
Definition rename (l : frame) (cv : string * option string)
  : string * option string :=
  (if has_column l (fst cv) then fst cv ++ "_chk" else fst cv, snd cv).

Definition left_join (l r : frame) : outcome frame :=
  Ret (map (fun kr : string * row =>
              (fst kr,
               app (snd kr)
                   match dict_get (fst kr) r with
                   | Some rr => map (rename l) rr
                   | None => []
                   end)) l).

Definition pd : pandas frame :=
  {| DataFrame_T := fun rows => rows;
     join_chk := left_join;
     concat_frames := fun fs => Ret (List.concat fs) |}.

(** [us.states] over a given list of states; [lookup] of a FIPS code finds
    the state that has it, [lookup(None)] is a [TypeError]. *)
Definition us (states : list State) : us_states :=
  {| STATES := states;
     lookup := fun v =>
       match v with
       | None => Raise TypeError
       | Some f => Ret (find (fun st => String.eqb (fips st) f) states)
       end |}.

(** A remote service that has no data at all. *)
Definition no_data (_ : request) : response :=
  {| Results_series := None |}.

(** A remote service that answers every request with the same series. *)
Definition always (l : list series) (_ : request) : response :=
  {| Results_series := Some l |}.

(** A remote service that has data only for requests starting in a given
    year. *)
Definition only_from (y : string) (l : list series) (r : request) : response :=
  {| Results_series := if String.eqb (startyear r) y then Some l else None |}.

Definition CT : State := {| abbr := "CT"; fips := "09" |}.
Definition NY : State := {| abbr := "NY"; fips := "36" |}.
Definition CA : State := {| abbr := "CA"; fips := "06" |}.

(** The three regions of the end-to-end scenario. *)
Definition three : list State := [CT; NY; CA].

(** Observations for ["09"] in the periods 2008-01 and 2008-02. *)
Definition ct_2008 : list series :=
  [ {| seriesID := "SMS09000000000000001";
       data := [ {| year := "2008"; period := "M01"; value := "1700.1" |};
                 {| year := "2008"; period := "M02"; value := "1699.5" |} ] |} ].

(** 51 states with the codes 01 .. 51, as many as the 50 states and DC. *)
Definition code_of (n : nat) : string := Py.zfill 2 (Py.str (Py.Int (Z.of_nat n))).
Definition fifty_one : list State :=
  map (fun n => {| abbr := "S" ++ code_of n; fips := code_of n |}) (seq 1 51).

(** One observation under an identifier of another kind of series. *)
Definition other_series : list series :=
  [ {| seriesID := "LNS14000000";
       data := [ {| year := "2008"; period := "M01"; value := "5.0" |} ] |} ].

Definition TX : State := {| abbr := "TX"; fips := "48" |}.

(** Four regions: with two per call the second group is not empty. *)
Definition four : list State := [CT; NY; CA; TX].

(** The frame and the trace of a run that returned. *)
Definition frame_of (r : result (frame * trace)) : frame :=
  match r with
  | Done (df, _) => df
  | _ => []
  end.

Definition trace_of (r : result (frame * trace)) : trace :=
  match r with
  | Done (_, tr) => tr
  | _ => []
  end.

(** The fetcher as it is in the source, for 1991 to 2018, over the three
    regions and over the 51 regions, against a service that answers every
    request with the two observations of ["09"]. *)
Definition run_three : result (frame * trace) :=
  download_all_employment_data pd (us three) "key" (always ct_2008)
    30 1991 2018.

Definition run_fifty_one : result (frame * trace) :=
  download_all_employment_data pd (us fifty_one) "key" (always ct_2008)
    100 1991 2018.

End Stub.

(** ** Shapes of the request plan, in the words of the specification *)

(** [tiles y lo hi ws]: the windows [ws], each with both of its years
    included, are consecutive, each spans at most [y] years, and together
    they are the years [lo], ..., [hi - 1]. *)
Fixpoint tiles (y lo hi : Z) (ws : list (Z * Z)) : Prop :=
  match ws with
  | [] => lo = hi
  | (s, e) :: ws' =>
      s = lo /\ s <= e /\ e < hi /\ e - s + 1 <= y /\ tiles y (e + 1) hi ws'
  end.

(** In how many of the windows the year [x] lies. *)
Definition count_in (x : Z) (ws : list (Z * Z)) : nat :=
  List.length (filter (fun w => ((fst w <=? x) && (x <=? snd w))%bool) ws).

(** The windows that the inner loop asks for when it starts at year [lo]
    of a range that stops before [hi]. *)
Fixpoint exact_windows (y lo hi : Z) (ws : list (Z * Z)) : Prop :=
  match ws with
  | [] => hi <= lo
  | (s, e) :: ws' =>
      lo < hi /\ s = lo /\ e = Z.min (hi - 1) (lo + y - 1) /\
      exact_windows y (lo + y) hi ws'
  end.

(** The groups that the outer loop forms from index [i] on. *)
Fixpoint exact_groups (m : Z) (l : list string) (i : Z)
    (G : list (list string)) : Prop :=
  match G with
  | [] => len l <= i
  | g :: G' =>
      i < len l /\ g = slice l i (Z.min (i + m) (len l - 1)) /\
      exact_groups m l (i + m) G'
  end.

(** [ceil(n / m)] for a positive [m]. *)
Definition ceil_div (n m : Z) : Z := (n + m - 1) / m.

(** A series whose observations the assembler can place: it has none, or
    [us.states.lookup] finds a state for what [id_to_fips] makes of its
    identifier. *)
Definition resolvable (us : us_states) (s : series) : Prop :=
  data s = [] \/
  exists st : State, lookup us (id_to_fips (seriesID s)) = Ret (Some st).

(** The events of the inner loop for one [request_fips]. *)
Definition call_events (request_fips : list string) (ws : list (Z * Z))
  : trace :=
  map (fun w => Call (map Py.Str request_fips) (fst w) (snd w)) ws.

(** The keys of a dictionary, in order. *)
Definition keys {V : Type} (d : dict V) : list string := map fst d.

(** Whether the character [c] occurs in [s]. *)
Fixpoint has_char (c : ascii) (s : string) : bool :=
  match s with
  | EmptyString => false
  | String a rest => (Ascii.eqb a c || has_char c rest)%bool
  end.

(** The period keys of a series, in the order of its observations. *)
Definition period_keys (s : series) : list string :=
  map year_period (data s).

(** The observations of a response in the order in which the two [for]
    loops visit them, each with the identifier of its series. *)
Definition observations (l : list series) : list (string * item) :=
  flat_map (fun s => map (pair (seriesID s)) (data s)) l.

(** The cell that an observation goes to: its series and its period key. *)
Definition cell_of (o : string * item) : string * string :=
  (fst o, year_period (snd o)).

(** The loop body run over a list of observations. *)
Fixpoint steps (us : us_states) (obs : list (string * item))
    (rows : dict row) : outcome (dict row) :=
  match obs with
  | [] => Ret rows
  | o :: obs' => obind (item_step us (fst o) rows (snd o)) (steps us obs')
  end.

(** The row that the loop body makes for a series it sees for the first
    time. *)
Definition new_row (st_abbr : string) (fips : option string) : row :=
  [("state", Some st_abbr); ("fips", fips)].

(** Every row carries the abbreviation of the state found for its series
    and the code that [id_to_fips] reads from the identifier. *)
Definition identified (us : us_states) (rows : dict row) : Prop :=
  forall (sid : string) (r : row),
    dict_get sid rows = Some r ->
    exists st : State,
      lookup us (id_to_fips sid) = Ret (Some st) /\
      dict_get "state" r = Some (Some (abbr st)) /\
      dict_get "fips" r = Some (id_to_fips sid).

(** No series has two rows and no row has a label twice. *)
Definition unique_keys (rows : dict row) : Prop :=
  NoDup (keys rows) /\ Forall (fun kr => NoDup (keys (snd kr))) rows.

(** The rows are those of the series that have an observation among [p],
    and the labels of a row are ["state"], ["fips"] and the period keys of
    the observations of its series. *)
Definition keys_from (p : list (string * item)) (rows : dict row) : Prop :=
  forall sid : string,
    (In sid (keys rows) <-> exists it, In (sid, it) p) /\
    (forall r : row,
       dict_get sid rows = Some r ->
       forall k : string,
         In k (keys r) <->
         k = "state" \/ k = "fips" \/
         exists it, In (sid, it) p /\ year_period it = k).

(** The rows that the assembler builds from the two observations of
    ["09"], and the trace of the call that fetched them. *)
Definition ct_2008_rows : dict row :=
  [("SMS09000000000000001",
    [("state", Some "CT"); ("fips", Some "09");
     ("2008-01", Some "1700.1"); ("2008-02", Some "1699.5")])].

Definition ct_2008_trace : trace :=
  [Call [Py.Str "09"; Py.Str "36"] 2008 2008].

(** ** The entry point *)

(** [sorted(labels)] for strings: the labels in ascending order of their
    characters' codes.  Insertion gives the list that any sort gives, the
    order being total and equal strings being the same string. *)
Fixpoint insert_sorted (x : string) (l : list string) : list string :=
  match l with
  | [] => [x]
  | y :: l' => if String.leb x y then x :: l else y :: insert_sorted x l'
  end.

Fixpoint sorted (l : list string) : list string :=
  match l with
  | [] => []
  | x :: l' => insert_sorted x (sorted l')
  end.

(** The [pandas] operations of [main], on a frame that exists. *)
Record pandas_out (DataFrame : Type) : Type := {
  (** [all_df.columns] *)
  columns : DataFrame -> list string;
  (** [all_df.reindex(labels, axis=1)] *)
  reindex : DataFrame -> list string -> outcome DataFrame
}.
Arguments columns {DataFrame} _ _.
Arguments reindex {DataFrame} _ _ _.

(** [main()]: the files written by [to_csv], each with its path and the
    frame that went into it. *)
Definition main {DataFrame : Type} (pd : pandas DataFrame)
    (out : pandas_out DataFrame) (us : us_states) (API_KEY : string)
    (post : request -> response) (fuel : nat)
  : result (list (string * DataFrame)) :=
  ('(all_df, _) <-
     download_all_employment_data pd us API_KEY post fuel 1991 2018 ;;
   df <- lift (reindex out all_df (sorted (columns out all_df))) ;;
   Done [("ALL-1991-2018.csv", df)])%py.

(** [s1 <= s2] on strings. *)
Definition str_le (s1 s2 : string) : Prop := String.leb s1 s2 = true.

(** Stand-ins for the operations of [main] on the frames of [Stub]: the
    labels of a frame, and the rows with their cells in the order asked
    for. *)
Definition stub_out : pandas_out Stub.frame :=
  {| columns := Stub.columns;
     reindex := fun f labels =>
       Ret (map (fun kr : string * row =>
                   (fst kr,
                    flat_map (fun c => match dict_get c (snd kr) with
                                       | Some v => [(c, v)]
                                       | None => []
                                       end) labels)) f) |}.

(** * Properties *)

(** ** Python built-ins *)

Lemma zeros_length (n : nat) : String.length (Py.zeros n) = n.
Proof.
  induction n as [|n IH]; simpl; [reflexivity | now rewrite IH].
Qed.

Lemma append_length (s t : string) :
  String.length (s ++ t) = (String.length s + String.length t)%nat.
Proof.
  induction s as [|c s IH]; simpl; [reflexivity | now rewrite IH].
Qed.

Lemma zfill_length (w : nat) (s : string) :
  String.length (Py.zfill w s) = Nat.max w (String.length s).
Proof.
  unfold Py.zfill, Py.slen.
  destruct (Nat.leb_spec w (String.length s)) as [Hle|Hlt].
  - lia.
  - destruct s as [|c rest]; simpl.
    + rewrite zeros_length. simpl. lia.
    + destruct (Ascii.eqb c "+" || Ascii.eqb c "-")%bool; simpl in *;
        rewrite append_length, zeros_length; simpl; lia.
Qed.

Lemma zfill_long (w : nat) (s : string) :
  (w <= String.length s)%nat -> Py.zfill w s = s.
Proof.
  intros H. unfold Py.zfill, Py.slen.
  destruct (Nat.leb_spec w (String.length s)); [reflexivity | lia].
Qed.

(** Replacing a one-character string by the empty string deletes every
    occurrence of the character. *)
Lemma replace_char_deletes (m : ascii) (s : string) :
  Py.replace (String m "") "" s = delete_char m s.
Proof.
  unfold Py.replace.
  induction s as [|c rest IH]; [reflexivity|].
  cbn [Py.replace_from delete_char String.prefix Py.slen String.length Nat.sub].
  destruct (ascii_dec m c) as [->|Hne].
  - rewrite Ascii.eqb_refl.
    destruct rest; simpl; exact IH.
  - destruct (Ascii.eqb_spec c m) as [->|_]; [contradiction|].
    now rewrite IH.
Qed.

(** ** The pattern matcher *)

Lemma run_literal (t : string) :
  forall (p : list Py.token) (s : string) (g r : string),
    Py.run (Py.literal t ++ p) s false g = Some r ->
    exists rest, s = t ++ rest /\ Py.run p rest false g = Some r.
Proof.
  induction t as [|c t IH]; intros p s g r H; simpl in *.
  - exists s. split; [reflexivity | exact H].
  - destruct s as [|a s']; [discriminate|].
    destruct (Ascii.eqb_spec a c) as [->|]; [|discriminate].
    apply IH in H. destruct H as [rest [-> H]].
    exists rest. split; [reflexivity | exact H].
Qed.

Lemma run_literal_ok (t : string) :
  forall (p : list Py.token) (rest g : string),
    Py.run (Py.literal t ++ p) (t ++ rest) false g = Py.run p rest false g.
Proof.
  induction t as [|c t IH]; intros p rest g; simpl.
  - reflexivity.
  - rewrite Ascii.eqb_refl. apply IH.
Qed.

(** What [id_to_fips] returns, and on which strings. *)
Lemma id_to_fips_Some (s g : string) :
  id_to_fips s = Some g <->
  exists (d1 d2 : ascii) (rest : string),
    is_digit d1 = true /\ is_digit d2 = true /\
    g = String d1 (String d2 "") /\
    s = series_prefix ++ String d1 (String d2 "") ++ series_suffix ++ rest.
Proof.
  unfold id_to_fips, Py.re_match_group1, series_pattern. split.
  - intros H.
    destruct (Py.run _ s false "") as [g'|] eqn:E; [|discriminate].
    injection H as ->.
    apply run_literal in E. destruct E as [r1 [-> E]].
    cbn [app repeat Py.run] in E.
    destruct r1 as [|d1 r1]; [discriminate|].
    destruct (Py.in_range "0" "9" d1) eqn:D1; [|discriminate].
    destruct r1 as [|d2 r1]; [discriminate|].
    destruct (Py.in_range "0" "9" d2) eqn:D2; [|discriminate].
    change (Py.run (Py.literal "000000000000001" ++ []) r1 false
              (String d1 (String d2 "")) = Some g) in E.
    apply run_literal in E. destruct E as [rest [-> E]].
    simpl in E. injection E as <-.
    exists d1, d2, rest. repeat split; assumption.
  - intros (d1 & d2 & rest & D1 & D2 & -> & ->).
    unfold series_prefix, series_suffix.
    rewrite run_literal_ok.
    cbn [app repeat Py.run append].
    unfold is_digit in D1, D2. rewrite D1, D2.
    change (Py.run (Py.literal "000000000000001" ++ [])
              ("000000000000001" ++ rest) false (String d1 (String d2 ""))
            = Some (String d1 (String d2 ""))).
    rewrite run_literal_ok. reflexivity.
Qed.

Lemma id_to_fips_None (s : string) :
  id_to_fips s = None <-> ~ starts_with_id s.
Proof.
  split.
  - intros H (d1 & d2 & rest & D1 & D2 & E).
    assert (id_to_fips s = Some (String d1 (String d2 ""))) as H'.
    { apply id_to_fips_Some. exists d1, d2, rest. repeat split; assumption. }
    congruence.
  - intros H. destruct (id_to_fips s) as [g|] eqn:E; [|reflexivity].
    exfalso. apply H. apply id_to_fips_Some in E.
    destruct E as (d1 & d2 & rest & D1 & D2 & _ & E).
    exists d1, d2, rest. repeat split; assumption.
Qed.

(** ** Identifier mapping *)

(** C5, as stated, fails: a well-formed identifier followed by one more
    character is not of the fixed format, yet [id_to_fips] returns its two
    digits, because [re.match] only anchors the pattern at the start. *)
Lemma id_to_fips_accepts_trailing_text :
  ~ well_formed_id "SMS09000000000000001X" /\
  id_to_fips "SMS09000000000000001X" = Some "09".
Proof.
  split; [|reflexivity].
  intros (d1 & d2 & _ & _ & E).
  apply (f_equal String.length) in E.
  simpl in E. discriminate E.
Qed.

(** C5, amended: for every string that does not start with a well-formed
    series identifier (the prefix, two digits, the suffix), [id_to_fips]
    returns the absent value; being a total function, it never throws.  A
    string that starts with a well-formed identifier and goes on with more
    characters, or with none, is accepted and yields the two digits. *)
Theorem id_to_fips_no_match (s : string) :
  (~ starts_with_id s -> id_to_fips s = None) /\
  (forall (d1 d2 : ascii) (rest : string),
     is_digit d1 = true -> is_digit d2 = true ->
     s = series_prefix ++ String d1 (String d2 "") ++ series_suffix ++ rest ->
     id_to_fips s = Some (String d1 (String d2 ""))).
Proof.
  split.
  - intros H. apply id_to_fips_None. exact H.
  - intros d1 d2 rest D1 D2 E. apply id_to_fips_Some.
    exists d1, d2, rest. repeat split; assumption.
Qed.

Lemma id_to_fips_no_match_witness :
  (~ starts_with_id "SMS0900000000000001" /\
   id_to_fips "SMS0900000000000001" = None) /\
  id_to_fips "SMS36000000000000001,2008" = Some "36".
Proof.
  assert (~ starts_with_id "SMS0900000000000001") as H.
  { intros (d1 & d2 & rest & _ & _ & E).
    apply (f_equal String.length) in E.
    simpl in E. lia. }
  split.
  - split; [exact H|].
    exact (proj1 (id_to_fips_no_match "SMS0900000000000001") H).
  - apply (proj2 (id_to_fips_no_match "SMS36000000000000001,2008")
             "3"%char "6"%char ",2008"); reflexivity.
Defined.

(** C7: for every valid two-digit region code [c],
    [id_to_fips(fips_to_id(c))] returns [c]. *)
Theorem id_to_fips_fips_to_id (c : string) :
  valid_code c -> id_to_fips (fips_to_id (Py.Str c)) = Some c.
Proof.
  intros (d1 & d2 & D1 & D2 & ->).
  apply id_to_fips_Some.
  exists d1, d2, "". repeat split; try assumption.
Qed.

Lemma id_to_fips_fips_to_id_witness :
  valid_code "09" /\ id_to_fips (fips_to_id (Py.Str "09")) = Some "09".
Proof.
  assert (valid_code "09") as H.
  { exists "0"%char, "9"%char. repeat split. }
  split; [exact H | exact (id_to_fips_fips_to_id "09" H)].
Defined.

(** The same for the codes given as numbers: every [int] from 0 to 99 comes
    back as its two-digit form. *)
Lemma id_to_fips_fips_to_id_int :
  forallb (fun n =>
             match id_to_fips (fips_to_id (Py.Int (Z.of_nat n))) with
             | Some c => String.eqb c (Py.zfill 2 (Py.str (Py.Int (Z.of_nat n))))
             | None => false
             end) (seq 0 100) = true.
Proof. vm_compute. reflexivity. Qed.

(** C9, as stated, fails: a code of three characters is not truncated, so
    the identifier of ["123"] has no two-character code segment. *)
Lemma fips_to_id_does_not_truncate :
  fips_to_id (Py.Str "123") = "SMS123000000000000001" /\
  ~ exists seg : string,
      String.length seg = 2%nat /\
      fips_to_id (Py.Str "123") = series_prefix ++ seg ++ series_suffix.
Proof.
  split; [reflexivity|].
  intros (seg & L & E).
  apply (f_equal String.length) in E.
  unfold series_prefix in E. simpl in E.
  rewrite append_length, L in E. simpl in E. discriminate E.
Qed.

(** C9, amended: [fips_to_id] is total; for every input code it returns the
    literal prefix, the code segment and the literal suffix, where the
    segment is the stringified code filled with zeros on the left up to two
    characters and never truncated: it has [max 2 (len code)] characters
    and is the code itself when that has two characters or more.  For a
    shorter code the zeros come before the code, or between a leading [+]
    or [-] and the rest of it. *)
Theorem fips_to_id_shape (st : Py.value) :
  exists seg : string,
    fips_to_id st = series_prefix ++ seg ++ series_suffix /\
    String.length seg = Nat.max 2 (String.length (Py.str st)) /\
    (if (2 <=? String.length (Py.str st))%nat
     then seg = Py.str st
     else String.length seg = 2%nat /\
          exists sign tail : string,
            Py.str st = sign ++ tail /\
            seg = sign ++ Py.zeros (2 - String.length (Py.str st)) ++ tail /\
            (sign = "+" \/ sign = "-" \/
             (sign = "" /\
              forall rest : string,
                tail <> String "+" rest /\ tail <> String "-" rest))).
Proof.
  exists (Py.zfill 2 (Py.str st)).
  split; [reflexivity|]. split; [apply zfill_length|].
  destruct (Nat.leb_spec 2 (String.length (Py.str st))) as [Hle|Hlt].
  - now apply zfill_long.
  - split; [rewrite zfill_length; lia|].
    unfold Py.zfill, Py.slen.
    destruct (Nat.leb_spec 2 (String.length (Py.str st))); [lia|].
    destruct (Py.str st) as [|c rest] eqn:E.
    + exists "", "". split; [reflexivity|]. split; [reflexivity|].
      right. right. split; [reflexivity|].
      intros r. split; discriminate.
    + destruct (Ascii.eqb_spec c "+") as [->|Np]; cbn [orb].
      * exists "+", rest. split; [reflexivity|]. split; [reflexivity|].
        now left.
      * destruct (Ascii.eqb_spec c "-") as [->|Nm].
        -- exists "-", rest. split; [reflexivity|]. split; [reflexivity|].
           right. now left.
        -- exists "", (String c rest).
           split; [reflexivity|]. split; [reflexivity|].
           right. right. split; [reflexivity|].
           intros r. split; intros [= Q]; contradiction.
Qed.

(** C10: the period key of an observation is its year, a hyphen, and its
    raw period with every ["M"] deleted, wherever in the period it is. *)
Theorem year_period_deletes_every_M (it : item) :
  year_period it = year it ++ "-" ++ delete_char "M" (period it).
Proof.
  unfold year_period, Py.join.
  rewrite replace_char_deletes. reflexivity.
Qed.

(** An [M] that is not the first character goes too. *)
Example year_period_inner_M :
  year_period {| year := "2008"; period := "M1M3"; value := "1" |} = "2008-13".
Proof. reflexivity. Qed.

(** ** Dictionaries *)

Lemma dict_get_set_same {V : Type} (k : string) (v : V) (d : dict V) :
  dict_get k (dict_set k v d) = Some v.
Proof.
  induction d as [|[k' v'] d IH]; simpl.
  - now rewrite String.eqb_refl.
  - destruct (String.eqb k k') eqn:E; simpl.
    + now rewrite String.eqb_refl.
    + now rewrite E.
Qed.

(** ** Table assembler *)

Section Assembler.

Context {DataFrame : Type}.
Variable pd : pandas DataFrame.
Variable us : us_states.
Variable API_KEY : string.
Variable post : request -> response.

(** The cell that one observation sets is the one under its period key. *)
Lemma item_step_sets_period_key (series_id : string) (rows rows' : dict row)
    (it : item) :
  item_step us series_id rows it = Ret rows' ->
  exists r : row,
    dict_get series_id rows' = Some r /\
    dict_get (year it ++ "-" ++ delete_char "M" (period it)) r
    = Some (Some (value it)).
Proof.
  unfold item_step. intros H.
  destruct (lookup us (id_to_fips series_id)) as [[st|]|e]; simpl in H;
    try discriminate.
  injection H as <-.
  rewrite dict_get_set_same. eexists. split; [reflexivity|].
  rewrite <- (replace_char_deletes "M" (period it)).
  apply (dict_get_set_same (year_period it)).
Qed.

Lemma for_items_found (series_id : string) (st : State) :
  lookup us (id_to_fips series_id) = Ret (Some st) ->
  forall (items : list item) (rows : dict row),
    exists rows', for_items us series_id items rows = Ret rows'.
Proof.
  intros L items. induction items as [|it items IH]; intros rows; simpl.
  - now exists rows.
  - unfold item_step. rewrite L. simpl. apply IH.
Qed.

Lemma for_items_not_found (series_id : string) (it : item)
    (items : list item) (rows : dict row) :
  (forall st, lookup us (id_to_fips series_id) <> Ret (Some st)) ->
  exists e, for_items us series_id (it :: items) rows = Raise e.
Proof.
  intros L. simpl. unfold item_step.
  destruct (lookup us (id_to_fips series_id)) as [[st|]|e]; simpl.
  - now destruct (L st).
  - now exists AttributeError.
  - now exists e.
Qed.

(** The outer [for] loop ends normally exactly when every series is
    resolvable, and raises otherwise. *)
Lemma for_series_cases (l : list series) :
  forall rows : dict row,
    (Forall (resolvable us) l /\ exists rows', for_series us l rows = Ret rows')
    \/ (~ Forall (resolvable us) l /\ exists e, for_series us l rows = Raise e).
Proof.
  induction l as [|s l IH]; intros rows.
  - left. split; [constructor | now exists rows].
  - simpl.
    destruct (data s) as [|it items] eqn:D.
    + simpl. destruct (IH rows) as [[F R]|[F R]].
      * left. split; [|exact R]. constructor; [now left | exact F].
      * right. split; [|exact R]. intros F'. inversion F'. contradiction.
    + destruct (lookup us (id_to_fips (seriesID s))) as [[st|]|e] eqn:L.
      * destruct (for_items_found (seriesID s) st L (it :: items) rows)
          as [rows1 R1].
        rewrite R1. simpl.
        destruct (IH rows1) as [[F R]|[F R]].
        -- left. split; [|exact R].
           constructor; [right; now exists st | exact F].
        -- right. split; [|exact R]. intros F'. inversion F'. contradiction.
      * right. split.
        -- intros F'. inversion F' as [|? ? [E|[st E]] _]; congruence.
        -- destruct (for_items_not_found (seriesID s) it items rows) as [e R].
           { intros st. congruence. }
           rewrite R. now exists e.
      * right. split.
        -- intros F'. inversion F' as [|? ? [E|[st E]] _]; congruence.
        -- destruct (for_items_not_found (seriesID s) it items rows) as [e' R].
           { intros st. congruence. }
           rewrite R. now exists e'.
Qed.

(** A call that returns has added itself, and nothing else, to the
    trace. *)
Lemma download_employment_data_trace (fips_list : list Py.value)
    (start_year end_year : Z) (tr tr' : trace) (chunk : option DataFrame) :
  download_employment_data pd us API_KEY post fips_list start_year end_year tr
  = Ret (chunk, tr') ->
  tr' = (tr ++ [Call fips_list start_year end_year])%list.
Proof.
  unfold download_employment_data.
  destruct (Results_series _) as [l|].
  - destruct (for_series us l []) as [rows|e]; simpl; [|discriminate].
    now intros [= _ <-].
  - now intros [= _ <-].
Qed.

(** C8, amended: [download_employment_data] returns the absent value exactly
    when the results object of the decoded response has no series list.
    When the list is present and every series in it that has observations
    carries an identifier for which [lookup] finds a state, it returns a
    table; when some series with observations does not, it raises. *)
Theorem download_employment_data_absent_iff_no_series
    (fips_list : list Py.value) (start_year end_year : Z) (tr : trace) :
  (download_employment_data pd us API_KEY post fips_list start_year end_year tr
   = Ret (None, (tr ++ [Call fips_list start_year end_year])%list)
   <-> Results_series
         (post (request_of API_KEY fips_list start_year end_year)) = None) /\
  (forall l : list series,
     Results_series
       (post (request_of API_KEY fips_list start_year end_year)) = Some l ->
     (Forall (resolvable us) l ->
      exists rows,
        download_employment_data pd us API_KEY post
          fips_list start_year end_year tr
        = Ret (Some (DataFrame_T pd rows),
               (tr ++ [Call fips_list start_year end_year])%list)) /\
     (~ Forall (resolvable us) l ->
      exists e,
        download_employment_data pd us API_KEY post
          fips_list start_year end_year tr = Raise e)).
Proof.
  unfold download_employment_data.
  destruct (Results_series _) as [l|] eqn:R.
  - split.
    + split; [|discriminate].
      destruct (for_series us l []) as [rows|e]; simpl; discriminate.
    + intros l' [= <-].
      destruct (for_series_cases l []) as [[F [rows E]]|[F [e E]]];
        rewrite E; simpl.
      * split; [intros _; now exists rows | intros NF; contradiction].
      * split; [intros F'; contradiction | intros _; now exists e].
  - split; [split; reflexivity | discriminate].
Qed.

End Assembler.

(** An instance: the response of the end-to-end scenario yields a table,
    and a response without a series list yields the absent value. *)
Lemma download_employment_data_absent_iff_no_series_witness :
  (exists rows,
     download_employment_data Stub.pd (Stub.us Stub.three) "key"
       (Stub.always Stub.ct_2008) [Py.Str "09"; Py.Str "36"] 2008 2008 []
     = Ret (Some (DataFrame_T Stub.pd rows),
            [Call [Py.Str "09"; Py.Str "36"] 2008 2008])) /\
  download_employment_data Stub.pd (Stub.us Stub.three) "key"
    Stub.no_data [Py.Str "09"; Py.Str "36"] 2008 2008 []
  = Ret (None, [Call [Py.Str "09"; Py.Str "36"] 2008 2008]).
Proof.
  split.
  - destruct (download_employment_data_absent_iff_no_series
                Stub.pd (Stub.us Stub.three) "key" (Stub.always Stub.ct_2008)
                [Py.Str "09"; Py.Str "36"] 2008 2008 []) as [_ H].
    destruct (H Stub.ct_2008 eq_refl) as [H1 _].
    apply H1.
    constructor; [right; exists Stub.CT; reflexivity | constructor].
  - destruct (download_employment_data_absent_iff_no_series
                Stub.pd (Stub.us Stub.three) "key" Stub.no_data
                [Py.Str "09"; Py.Str "36"] 2008 2008 []) as [H _].
    apply H. reflexivity.
Defined.

(** C8, as stated, fails: a response whose series list is present but
    holds an identifier that [id_to_fips] does not recognise makes the
    assembler raise instead of returning a table. *)
Lemma download_employment_data_raises_on_unknown_series :
  Results_series (Stub.always Stub.other_series
                    (request_of "key" [Py.Str "09"] 2008 2008))
  = Some Stub.other_series /\
  download_employment_data Stub.pd (Stub.us Stub.three) "key"
    (Stub.always Stub.other_series) [Py.Str "09"] 2008 2008 []
  = Raise TypeError.
Proof. split; reflexivity. Qed.

(** ** Chunked fetcher: the inner loop *)

Lemma range_getitem_ok (r : range) (i : Z) :
  0 <= i < range_len r -> range_getitem r i = Ret (range_start r + i).
Proof.
  intros H. unfold range_getitem.
  destruct (Z.ltb_spec i 0); [lia|].
  destruct (Z.leb_spec 0 i); [|lia].
  destruct (Z.ltb_spec i (range_len r)); [reflexivity | lia].
Qed.

Lemma calls_of_app (t1 t2 : trace) :
  calls_of (t1 ++ t2)%list = (calls_of t1 ++ calls_of t2)%list.
Proof. unfold calls_of. apply flat_map_app. Qed.

Lemma groups_of_app (t1 t2 : trace) :
  groups_of (t1 ++ t2)%list = (groups_of t1 ++ groups_of t2)%list.
Proof. unfold groups_of. apply flat_map_app. Qed.

Lemma calls_of_call_events (g : list string) (ws : list (Z * Z)) :
  calls_of (call_events g ws) = map (fun w => (map Py.Str g, w)) ws.
Proof.
  induction ws as [|[s e] ws IH]; simpl; [reflexivity | now rewrite <- IH].
Qed.

Lemma groups_of_call_events (g : list string) (ws : list (Z * Z)) :
  groups_of (call_events g ws) = [].
Proof.
  induction ws as [|[s e] ws IH]; simpl; [reflexivity | exact IH].
Qed.

Section Fetcher.

Context {DataFrame : Type}.
Variable pd : pandas DataFrame.
Variable us : us_states.
Variable API_KEY : string.
Variable post : request -> response.
Variables fips_interval year_interval : Z.
Variable fips_codes : list string.
Variable years : range.

Hypothesis year_interval_pos : 0 < year_interval.

Let lo := range_start years.
Let hi := range_start years + range_len years.

(** A run of the inner loop that returns has issued exactly the calls of
    [exact_windows], in order, and leaves [year_index] at or past the end
    of [years]. *)
Lemma year_loop_Done (fuel : nat) :
  forall (request_fips : list string) (year_index : Z)
         (year_frame : option DataFrame) (tr : trace)
         (year_index' : Z) (year_frame' : option DataFrame) (tr' : trace),
    0 <= year_index ->
    year_loop pd us API_KEY post year_interval years
              fuel request_fips year_index year_frame tr
    = Done (year_index', year_frame', tr') ->
    exists ws : list (Z * Z),
      tr' = (tr ++ call_events request_fips ws)%list /\
      exact_windows year_interval (lo + year_index) hi ws /\
      range_len years <= year_index' /\ year_index <= year_index'.
Proof.
  induction fuel as [|fuel IH]; intros g i f tr i' f' tr' Hi H; simpl in H.
  - discriminate.
  - destruct (Z.ltb_spec i (range_len years)) as [Hlt|Hge].
    + rewrite (range_getitem_ok years i) in H by lia.
      rewrite (range_getitem_ok years
                 (Z.min (range_len years - 1) (i + year_interval - 1)))
        in H by lia.
      simpl in H.
      destruct (download_employment_data _ _ _ _ _ _ _ _)
        as [[chunk tr1]|e] eqn:D; simpl in H; [|discriminate].
      apply download_employment_data_trace in D. subst tr1.
      destruct (merge_year_chunk pd f chunk) as [f1|e]; simpl in H;
        [|discriminate].
      apply IH in H; [|lia].
      destruct H as (ws & -> & W & L1 & L2).
      exists ((lo + i, lo + Z.min (range_len years - 1) (i + year_interval - 1))
              :: ws).
      split; [|split; [|split]].
      * rewrite <- app_assoc. reflexivity.
      * simpl. unfold hi, lo in *. repeat split; try lia.
        replace (range_start years + i + year_interval)
          with (range_start years + (i + year_interval)) by lia.
        exact W.
      * exact L1.
      * lia.
    + injection H as <- <- <-.
      exists []. simpl. rewrite app_nil_r.
      unfold hi, lo. repeat split; lia.
Qed.

(** With fuel for every year of the range, the inner loop does not run out
    of it. *)
Lemma year_loop_fuel (fuel : nat) :
  forall (request_fips : list string) (year_index : Z)
         (year_frame : option DataFrame) (tr : trace),
    0 <= year_index ->
    Z.max 0 (range_len years - year_index) < Z.of_nat fuel ->
    year_loop pd us API_KEY post year_interval years
              fuel request_fips year_index year_frame tr
    <> Timeout.
Proof.
  induction fuel as [|fuel IH]; intros g i f tr Hi Hf; simpl.
  - lia.
  - destruct (Z.ltb_spec i (range_len years)) as [Hlt|Hge]; [|discriminate].
    rewrite (range_getitem_ok years i) by lia.
    rewrite (range_getitem_ok years
               (Z.min (range_len years - 1) (i + year_interval - 1))) by lia.
    simpl.
    destruct (download_employment_data _ _ _ _ _ _ _ _)
      as [[chunk tr1]|e]; simpl; [|discriminate].
    destruct (merge_year_chunk pd f chunk) as [f1|e]; simpl; [|discriminate].
    apply IH; lia.
Qed.

(** ** Chunked fetcher: the outer loop *)

(** A run of the outer loop that returns has formed exactly the groups of
    [exact_groups]; its calls all carry the first of these groups and are
    the calls of the inner loop from where [year_index] stood. *)
Lemma fips_loop_Done (year_fuel fuel : nat) :
  forall (fips_index year_index : Z) (fips_frames : list (option DataFrame))
         (tr : trace) (fips_frames' : list (option DataFrame)) (tr' : trace),
    0 <= year_index ->
    fips_loop pd us API_KEY post fips_interval year_interval fips_codes years
              year_fuel fuel fips_index year_index fips_frames tr
    = Done (fips_frames', tr') ->
    exists (G : list (list string)) (ws : list (Z * Z)),
      groups_of tr' = (groups_of tr ++ G)%list /\
      exact_groups fips_interval fips_codes fips_index G /\
      calls_of tr'
      = (calls_of tr ++ map (fun w => (map Py.Str (hd [] G), w)) ws)%list /\
      match G with
      | [] => ws = []
      | _ :: _ => exact_windows year_interval (lo + year_index) hi ws
      end /\
      List.length fips_frames'
      = (List.length fips_frames + List.length G)%nat.
Proof.
  induction fuel as [|fuel IH];
    intros fi yi frames tr frames' tr' Hyi H; simpl in H.
  - discriminate.
  - destruct (Z.ltb_spec fi (len fips_codes)) as [Hlt|Hge].
    + set (g := slice fips_codes fi
                  (Z.min (fi + fips_interval) (len fips_codes - 1))) in *.
      destruct (year_loop _ _ _ _ _ _ _ _ _ _ _) as [[[yi1 f1] tr1]| |] eqn:Y;
        simpl in H; try discriminate.
      apply year_loop_Done in Y; [|exact Hyi].
      destruct Y as (ws & -> & W & L1 & L2).
      apply IH in H; [|lia].
      destruct H as (G & ws' & HG & EG & HC & HW & HL).
      assert (ws' = []) as ->.
      { destruct G as [|g' G']; [exact HW|].
        destruct ws' as [|[s e] ws']; [reflexivity|].
        simpl in HW. unfold hi, lo in HW. lia. }
      exists (g :: G), ws.
      split; [|split; [|split; [|split]]].
      * rewrite HG, !groups_of_app, groups_of_call_events. simpl.
        rewrite app_nil_r, <- app_assoc. reflexivity.
      * simpl. repeat split; [lia | exact EG].
      * rewrite HC, !calls_of_app, calls_of_call_events. simpl.
        rewrite !app_nil_r. reflexivity.
      * exact W.
      * rewrite HL, length_app. simpl. lia.
    + injection H as <- <-.
      exists [], []. simpl. rewrite !app_nil_r.
      repeat split; try reflexivity; lia.
Qed.

End Fetcher.

Section Termination.

Context {DataFrame : Type}.
Variable pd : pandas DataFrame.
Variable us : us_states.
Variable API_KEY : string.
Variable post : request -> response.
Variables fips_interval year_interval : Z.
Variable fips_codes : list string.
Variable years : range.

Hypothesis fips_interval_pos : 0 < fips_interval.
Hypothesis year_interval_pos : 0 < year_interval.

(** With fuel for every region and every year, the outer loop does not run
    out of it either. *)
Lemma fips_loop_fuel (year_fuel fuel : nat) :
  forall (fips_index year_index : Z) (fips_frames : list (option DataFrame))
         (tr : trace),
    0 <= year_index ->
    range_len years < Z.of_nat year_fuel ->
    Z.max 0 (len fips_codes - fips_index) < Z.of_nat fuel ->
    fips_loop pd us API_KEY post fips_interval year_interval fips_codes years
              year_fuel fuel fips_index year_index fips_frames tr
    <> Timeout.
Proof.
  induction fuel as [|fuel IH]; intros fi yi frames tr Hyi Hy Hf; simpl.
  - lia.
  - destruct (Z.ltb_spec fi (len fips_codes)) as [Hlt|Hge]; [|discriminate].
    destruct (year_loop _ _ _ _ _ _ _ _ _ _ _) as [[[yi1 f1] tr1]| |] eqn:Y;
      simpl; try discriminate.
    + apply year_loop_Done in Y; try assumption.
      destruct Y as (ws & _ & _ & _ & L2).
      apply IH; lia.
    + exfalso. revert Y. apply year_loop_fuel; try assumption.
      unfold range_len in *. lia.
Qed.

End Termination.

(** ** Chunked fetcher: the whole run *)

Section Run.

Context {DataFrame : Type}.
Variable pd : pandas DataFrame.
Variable us : us_states.
Variable API_KEY : string.
Variable post : request -> response.
Variables fips_interval year_interval : Z.

(** The fetcher never runs out of fuel when given more than there are
    regions and years. *)
Lemma download_all_employment_data_with_fuel
    (fuel : nat) (start_year end_year : Z) :
  0 < fips_interval -> 0 < year_interval ->
  Z.max (len (STATES us)) (end_year - start_year) < Z.of_nat fuel ->
  download_all_employment_data_with pd us API_KEY post
    fips_interval year_interval fuel start_year end_year <> Timeout.
Proof.
  intros Hm Hy Hf. unfold download_all_employment_data_with.
  destruct (fips_loop _ _ _ _ _ _ _ _ _ _ _ _ _ _) as [[frames tr]| |] eqn:F;
    simpl.
  - destruct (concat pd frames); simpl; discriminate.
  - discriminate.
  - exfalso. revert F. apply fips_loop_fuel; try assumption; try lia.
    + unfold range_len, len in *. simpl. lia.
    + unfold len in *. rewrite length_map. lia.
Qed.

(** What a run that returns has done: it has formed the groups of
    [exact_groups], at least one, and every call it has issued carries the
    first group and one window of [exact_windows]. *)
Lemma download_all_employment_data_with_Done
    (fuel : nat) (start_year end_year : Z) (df : DataFrame) (tr : trace) :
  0 < year_interval ->
  download_all_employment_data_with pd us API_KEY post
    fips_interval year_interval fuel start_year end_year = Done (df, tr) ->
  exists (g : list string) (G : list (list string)) (ws : list (Z * Z)),
    groups_of tr = g :: G /\
    exact_groups fips_interval (map fips (STATES us)) 0 (g :: G) /\
    calls_of tr = map (fun w => (map Py.Str g, w)) ws /\
    exact_windows year_interval start_year
                  (start_year + Z.max 0 (end_year - start_year)) ws.
Proof.
  intros Hy H. unfold download_all_employment_data_with in H.
  destruct (fips_loop _ _ _ _ _ _ _ _ _ _ _ _ _ _) as [[frames tr1]| |] eqn:F;
    simpl in H; try discriminate.
  apply fips_loop_Done in F; [|exact Hy|lia].
  destruct F as (G & ws & HG & EG & HC & HW & HL).
  destruct G as [|g G].
  - destruct frames; [|discriminate HL]. simpl in H. discriminate.
  - destruct (concat pd frames) as [df1|e]; simpl in H; [|discriminate].
    injection H as <- <-.
    exists g, G, ws. simpl in HG, HC.
    split; [exact HG|]. split; [exact EG|]. split; [exact HC|].
    unfold range_len in HW. simpl in HW.
    rewrite ?Z.add_0_r in HW. exact HW.
Qed.

End Run.

(** ** Year windows *)

Lemma exact_windows_tiles (y hi : Z) (ws : list (Z * Z)) :
  0 < y ->
  forall lo : Z, lo <= hi -> exact_windows y lo hi ws -> tiles y lo hi ws.
Proof.
  intros Hy. induction ws as [|[s e] ws IH]; intros lo Hle H; simpl in *.
  - lia.
  - destruct H as (Hlt & -> & -> & H).
    repeat split; try lia.
    destruct (Z.le_gt_cases (lo + y) hi) as [Hfit|Hover].
    + replace (Z.min (hi - 1) (lo + y - 1) + 1) with (lo + y) by lia.
      apply IH; [exact Hfit | exact H].
    + replace (Z.min (hi - 1) (lo + y - 1) + 1) with hi by lia.
      destruct ws as [|[s' e'] ws']; simpl in *; [reflexivity | lia].
Qed.

Lemma tiles_count_in (y hi : Z) (ws : list (Z * Z)) :
  forall lo : Z,
    tiles y lo hi ws ->
    lo <= hi /\
    forall x : Z,
      count_in x ws = if ((lo <=? x) && (x <? hi))%bool then 1%nat else 0%nat.
Proof.
  induction ws as [|[s e] ws IH]; intros lo H; simpl in H.
  - subst hi. split; [lia|]. intros x. unfold count_in. simpl.
    destruct (Z.leb_spec lo x), (Z.ltb_spec x lo); simpl; try reflexivity; lia.
  - destruct H as (-> & Hse & Heh & _ & H).
    apply IH in H. destruct H as [Hle Hc].
    split; [lia|]. intros x.
    specialize (Hc x). unfold count_in in *. simpl.
    destruct (Z.leb_spec lo x), (Z.leb_spec x e), (Z.ltb_spec x hi),
             (Z.leb_spec (e + 1) x);
      simpl in *; try lia; rewrite Hc; try reflexivity; lia.
Qed.

(** The windows of [exact_windows] are determined by the range and the
    limit. *)
Lemma exact_windows_unique (y hi : Z) (ws : list (Z * Z)) :
  forall (lo : Z) (ws' : list (Z * Z)),
    exact_windows y lo hi ws -> exact_windows y lo hi ws' -> ws = ws'.
Proof.
  induction ws as [|[s e] ws IH]; intros lo [|[s' e'] ws'] H H'; simpl in *.
  - reflexivity.
  - lia.
  - lia.
  - destruct H as (_ & -> & -> & H), H' as (_ & -> & -> & H').
    f_equal. apply (IH (lo + y)); assumption.
Qed.

(** ** Region groups *)

Lemma firstn_plus {A : Type} (a b : nat) (l : list A) :
  firstn (a + b) l = (firstn a l ++ firstn b (skipn a l))%list.
Proof.
  revert l. induction a as [|a IH]; intros l; simpl.
  - reflexivity.
  - destruct l as [|x l]; simpl.
    + now rewrite firstn_nil.
    + now rewrite IH.
Qed.

(** A slice with bounds inside the list. *)
Lemma slice_inside {A : Type} (l : list A) (a b : Z) :
  0 <= a <= len l -> 0 <= b <= len l ->
  slice l a b = firstn (Z.to_nat (b - a)) (skipn (Z.to_nat a) l).
Proof.
  intros Ha Hb. unfold slice, clamp.
  destruct (Z.ltb_spec a 0), (Z.ltb_spec b 0); try lia.
  rewrite !Z.min_l by lia. reflexivity.
Qed.

Section Groups.

Variable m : Z.
Variable l : list string.
Hypothesis m_pos : 0 < m.

Lemma exact_groups_concat (G : list (list string)) :
  forall i : Z,
    0 <= i -> exact_groups m l i G ->
    List.concat G
    = firstn (Z.to_nat (len l - 1 - i)) (skipn (Z.to_nat i) l).
Proof.
  induction G as [|g G IH]; intros i Hi H; simpl in H.
  - replace (Z.to_nat (len l - 1 - i)) with O by lia. reflexivity.
  - destruct H as (Hlt & -> & H). simpl.
    rewrite (IH (i + m)) by (lia || exact H).
    rewrite slice_inside by lia.
    destruct (Z.le_gt_cases (i + m) (len l - 1)) as [Hfit|Hover].
    + rewrite Z.min_l by lia.
      replace (Z.to_nat (len l - 1 - i))
        with (Z.to_nat (i + m - i) + Z.to_nat (len l - 1 - (i + m)))%nat
        by lia.
      rewrite firstn_plus, skipn_skipn.
      replace (Z.to_nat (i + m - i) + Z.to_nat i)%nat
        with (Z.to_nat (i + m)) by lia.
      reflexivity.
    + rewrite Z.min_r by lia.
      replace (Z.to_nat (len l - 1 - (i + m))) with O by lia.
      simpl. now rewrite app_nil_r.
Qed.

Lemma exact_groups_sizes (G : list (list string)) :
  forall i : Z,
    0 <= i -> exact_groups m l i G -> Forall (fun g => len g <= m) G.
Proof.
  induction G as [|g G IH]; intros i Hi H; simpl in H.
  - constructor.
  - destruct H as (Hlt & -> & H). constructor.
    + rewrite slice_inside by lia.
      pose proof (firstn_le_length
                    (Z.to_nat (Z.min (i + m) (len l - 1) - i))
                    (skipn (Z.to_nat i) l)) as L.
      unfold len in *. lia.
    + apply (IH (i + m)); [lia | exact H].
Qed.

Lemma exact_groups_count (G : list (list string)) :
  forall i : Z,
    0 <= i -> exact_groups m l i G ->
    len G = ceil_div (Z.max 0 (len l - i)) m.
Proof.
  unfold ceil_div.
  induction G as [|g G IH]; intros i Hi H; simpl in H.
  - rewrite Z.max_l by lia. simpl.
    symmetry. apply Z.div_small. lia.
  - destruct H as (Hlt & _ & H).
    apply (IH (i + m)) in H; [|lia].
    unfold len in *. cbn [List.length]. rewrite Nat2Z.inj_succ, H.
    set (n := Z.of_nat (List.length l)) in *.
    rewrite (Z.max_r 0 (n - i)) by lia.
    destruct (Z.le_gt_cases (i + m) n) as [Hfit|Hover].
    + rewrite Z.max_r by lia.
      replace (n - i + m - 1) with (n - (i + m) + m - 1 + 1 * m) by lia.
      rewrite Z.div_add by lia. lia.
    + rewrite Z.max_l by lia.
      rewrite (Z.div_small (0 + m - 1) m) by lia.
      apply (Z.div_unique _ m _ (n - i - 1)); lia.
Qed.

End Groups.

(** The groups of a run that returns: as many as [ceil(n/m)], none larger
    than [m], and together all region codes but the last one. *)
Lemma region_groups_of_run {DataFrame : Type} (pd : pandas DataFrame)
    (us : us_states) (API_KEY : string) (post : request -> response)
    (fips_interval year_interval : Z) (fuel : nat) (start_year end_year : Z)
    (df : DataFrame) (tr : trace) :
  0 < fips_interval -> 0 < year_interval ->
  download_all_employment_data_with pd us API_KEY post
    fips_interval year_interval fuel start_year end_year = Done (df, tr) ->
  len (groups_of tr) = ceil_div (len (map fips (STATES us))) fips_interval /\
  Forall (fun g => len g <= fips_interval) (groups_of tr) /\
  List.concat (groups_of tr) = removelast (map fips (STATES us)).
Proof.
  intros Hm Hy H.
  apply download_all_employment_data_with_Done in H; [|exact Hy].
  destruct H as (g & G & ws & -> & EG & _ & _).
  split; [|split].
  - rewrite (exact_groups_count fips_interval (map fips (STATES us)) Hm
               (g :: G) 0) by (lia || exact EG).
    f_equal. unfold len. lia.
  - apply (exact_groups_sizes fips_interval (map fips (STATES us)) Hm
             (g :: G) 0); [lia | exact EG].
  - rewrite (exact_groups_concat fips_interval (map fips (STATES us)) Hm
               (g :: G) 0) by (lia || exact EG).
    rewrite removelast_firstn_len. simpl skipn.
    f_equal. unfold len. lia.
Qed.

(** ** Claims about the chunked fetcher *)

Lemma windows_of_first_group (g : list Py.value) (ws : list (Z * Z))
    (tr : trace) :
  calls_of tr = map (fun w => (g, w)) ws -> windows_of tr = ws.
Proof.
  intros H. unfold windows_of. rewrite H, map_map. simpl. apply map_id.
Qed.

(** C3: for every year range with [start_year <= end_year] and every
    positive limit [y], the year windows of the calls that a returning run
    of the fetcher has issued are consecutive and do not overlap, each
    spans at most [y] years, and together they are exactly the years from
    [start_year] to [end_year - 1]: every such year lies in one window and
    no other year lies in any. *)
Theorem year_windows_tile_the_range {DataFrame : Type}
    (pd : pandas DataFrame) (us : us_states) (API_KEY : string)
    (post : request -> response) (fips_interval y : Z) (fuel : nat)
    (start_year end_year : Z) (df : DataFrame) (tr : trace) :
  0 < y -> start_year <= end_year ->
  download_all_employment_data_with pd us API_KEY post
    fips_interval y fuel start_year end_year = Done (df, tr) ->
  tiles y start_year end_year (windows_of tr) /\
  forall x : Z,
    count_in x (windows_of tr)
    = if ((start_year <=? x) && (x <? end_year))%bool then 1%nat else 0%nat.
Proof.
  intros Hy Hse H.
  apply download_all_employment_data_with_Done in H; [|exact Hy].
  destruct H as (g & G & ws & _ & _ & HC & HW).
  apply windows_of_first_group in HC. rewrite HC.
  replace (start_year + Z.max 0 (end_year - start_year)) with end_year
    in HW by lia.
  apply exact_windows_tiles in HW; [|exact Hy|exact Hse].
  split; [exact HW|].
  apply (tiles_count_in y end_year ws start_year HW).
Qed.

Lemma year_windows_tile_the_range_witness :
  tiles 20 1991 2018 (windows_of (Stub.trace_of Stub.run_three)) /\
  forall x : Z,
    count_in x (windows_of (Stub.trace_of Stub.run_three))
    = if ((1991 <=? x) && (x <? 2018))%bool then 1%nat else 0%nat.
Proof.
  apply (year_windows_tile_the_range
           Stub.pd (Stub.us Stub.three) "key" (Stub.always Stub.ct_2008)
           50 20 30 1991 2018
           (Stub.frame_of Stub.run_three) (Stub.trace_of Stub.run_three)).
  - lia.
  - lia.
  - vm_compute. reflexivity.
Defined.

(** C4, as stated, fails: for the years 1991 to 2018 and the limit of 20
    years the windows of the calls are not 1991-2009 and 2010-2017. *)
Lemma year_windows_1991_2018_not_2009 :
  Stub.run_fifty_one
  = Done (Stub.frame_of Stub.run_fifty_one, Stub.trace_of Stub.run_fifty_one)
  /\ windows_of (Stub.trace_of Stub.run_fifty_one)
     <> [(1991, 2009); (2010, 2017)].
Proof.
  split; [vm_compute; reflexivity | vm_compute; discriminate].
Qed.

(** C4, amended: for [start_year = 1991], [end_year = 2018] and the limit
    of 20 years, a returning run of the fetcher has asked for exactly two
    year windows, 1991-2010 and 2011-2017. *)
Theorem year_windows_1991_2018 {DataFrame : Type}
    (pd : pandas DataFrame) (us : us_states) (API_KEY : string)
    (post : request -> response) (fuel : nat) (df : DataFrame) (tr : trace) :
  download_all_employment_data pd us API_KEY post fuel 1991 2018
  = Done (df, tr) ->
  windows_of tr = [(1991, 2010); (2011, 2017)].
Proof.
  intros H. unfold download_all_employment_data in H.
  apply download_all_employment_data_with_Done in H; [|lia].
  destruct H as (g & G & ws & _ & _ & HC & HW).
  apply windows_of_first_group in HC. rewrite HC.
  apply (exact_windows_unique 20 _ ws 1991 _ HW).
  simpl. lia.
Qed.

Lemma year_windows_1991_2018_witness :
  windows_of (Stub.trace_of Stub.run_fifty_one)
  = [(1991, 2010); (2011, 2017)].
Proof.
  apply (year_windows_1991_2018
           Stub.pd (Stub.us Stub.fifty_one) "key" (Stub.always Stub.ct_2008)
           100 (Stub.frame_of Stub.run_fifty_one)
           (Stub.trace_of Stub.run_fifty_one)).
  vm_compute. reflexivity.
Defined.

(** C1 at the 51 regions, with the limit of 50 of the source: the run
    returns, and it has formed [ceil(51/50) = 2] groups, neither larger
    than 50; but the second group is empty, and the last region, ["51"],
    is in no group.  The slice that forms a group ends at
    [len(fips_codes) - 1] at the latest. *)
Theorem region_groups_of_fifty_one :
  Stub.run_fifty_one
  = Done (Stub.frame_of Stub.run_fifty_one, Stub.trace_of Stub.run_fifty_one)
  /\ groups_of (Stub.trace_of Stub.run_fifty_one)
     = [firstn 50 (map fips Stub.fifty_one); []]
  /\ existsb (String.eqb "51") (map fips Stub.fifty_one) = true
  /\ existsb (String.eqb "51")
             (List.concat (groups_of (Stub.trace_of Stub.run_fifty_one)))
     = false.
Proof.
  repeat split; vm_compute; reflexivity.
Qed.

(** The same at the three regions of the end-to-end scenario with two
    regions per call: ["06"] is in no group. *)
Example region_groups_of_three :
  exists df : Stub.frame,
    download_all_employment_data_with Stub.pd (Stub.us Stub.three) "key"
      (Stub.always Stub.ct_2008) 2 20 30 2008 2009
    = Done (df, [Group ["09"; "36"];
                 Call [Py.Str "09"; Py.Str "36"] 2008 2008;
                 Group []]).
Proof. eexists. vm_compute. reflexivity. Qed.

(** C2 on the code.  With the limits of the source and 51 regions, the run
    for 1991 to 2018 forms two groups and issues two calls, both for the
    first group, one per year window; the second group gets no call.  At
    the three regions ["09"], ["36"], ["06"] with two regions per call and
    the one year 2008, the run returns the table with the one row of
    ["09"], but it has issued one call, for the first group.  With four
    regions the second group is ["06"], and it gets no call either:
    [year_index] is not set back to 0 for it. *)
Theorem later_region_groups_get_no_call :
  Stub.trace_of Stub.run_fifty_one
  = [Group (firstn 50 (map fips Stub.fifty_one));
     Call (map Py.Str (firstn 50 (map fips Stub.fifty_one))) 1991 2010;
     Call (map Py.Str (firstn 50 (map fips Stub.fifty_one))) 2011 2017;
     Group []]
  /\
  download_all_employment_data_with Stub.pd (Stub.us Stub.three) "key"
    (Stub.always Stub.ct_2008) 2 20 30 2008 2009
  = Done ([("SMS09000000000000001",
            [("state", Some "CT"); ("fips", Some "09");
             ("2008-01", Some "1700.1"); ("2008-02", Some "1699.5")])],
          [Group ["09"; "36"];
           Call [Py.Str "09"; Py.Str "36"] 2008 2008;
           Group []])
  /\
  download_all_employment_data_with Stub.pd (Stub.us Stub.four) "key"
    (Stub.always Stub.ct_2008) 2 20 30 2008 2009
  = Done ([("SMS09000000000000001",
            [("state", Some "CT"); ("fips", Some "09");
             ("2008-01", Some "1700.1"); ("2008-02", Some "1699.5")])],
          [Group ["09"; "36"];
           Call [Py.Str "09"; Py.Str "36"] 2008 2008;
           Group ["06"]]).
Proof.
  split; [|split].
  - vm_compute. reflexivity.
  - vm_compute. reflexivity.
  - vm_compute. reflexivity.
Qed.

(** C6 on the code: once a table has been accumulated, an absent chunk is
    handed to [join], which raises.  So does the whole fetcher, with the
    limits of the source, when the service has data for the window that
    starts in 1991 and none for the window that starts in 2011.  An absent
    chunk is harmless only while nothing has been accumulated. *)
Theorem absent_chunk_after_table_raises :
  (forall (DataFrame : Type) (pd : pandas DataFrame) (year_frame : DataFrame),
     merge_year_chunk pd (Some year_frame) None = Raise TypeError)
  /\ (forall (DataFrame : Type) (pd : pandas DataFrame),
        merge_year_chunk pd None None = Ret None)
  /\ download_all_employment_data Stub.pd (Stub.us Stub.fifty_one) "key"
       (Stub.only_from "1991" Stub.ct_2008) 100 1991 2018
     = Raised TypeError.
Proof.
  split; [|split].
  - reflexivity.
  - reflexivity.
  - vm_compute. reflexivity.
Qed.

(** * Further properties of the module *)

(** ** Identifier mapping *)

Lemma append_cancel_r (t : string) :
  forall s s' : string, s ++ t = s' ++ t -> s = s'.
Proof.
  induction s as [|c s IH]; intros [|c' s'] H; simpl in H.
  - reflexivity.
  - apply (f_equal String.length) in H. simpl in H.
    rewrite append_length in H. lia.
  - apply (f_equal String.length) in H. simpl in H.
    rewrite append_length in H. lia.
  - injection H as -> H. f_equal. now apply IH.
Qed.

(** When [id_to_fips] returns a code, the code is two decimal digits, and
    the input is the prefix, that code, the suffix, and whatever follows. *)
Theorem id_to_fips_code (s g : string) :
  id_to_fips s = Some g ->
  valid_code g /\
  exists rest : string, s = series_prefix ++ g ++ series_suffix ++ rest.
Proof.
  intros H. apply id_to_fips_Some in H.
  destruct H as (d1 & d2 & rest & D1 & D2 & -> & ->).
  split.
  - exists d1, d2. repeat split; assumption.
  - exists rest. reflexivity.
Qed.

Lemma id_to_fips_code_witness :
  valid_code "36" /\
  exists rest : string,
    "SMS36000000000000001,2008" = series_prefix ++ "36" ++ series_suffix ++ rest.
Proof.
  apply (id_to_fips_code "SMS36000000000000001,2008" "36"). reflexivity.
Defined.

(** The round trip through [fips_to_id] and [id_to_fips] gives back the
    stringified code exactly when that is two decimal digits; any other
    code comes back changed or not at all. *)
Theorem round_trip_iff_valid_code (st : Py.value) :
  id_to_fips (fips_to_id st) = Some (Py.str st) <-> valid_code (Py.str st).
Proof.
  split.
  - intros H. apply id_to_fips_Some in H.
    destruct H as (d1 & d2 & rest & D1 & D2 & E & _).
    exists d1, d2. repeat split; assumption.
  - intros (d1 & d2 & D1 & D2 & E).
    apply id_to_fips_Some. exists d1, d2, "".
    repeat split; try assumption.
    unfold fips_to_id. rewrite E. reflexivity.
Qed.

(** A code given as an [int] from 0 to 99 gets the series identifier of its
    two-digit form, and [id_to_fips] gives that form back. *)
Theorem int_code_round_trip (n : Z) :
  0 <= n < 100 ->
  valid_code (Py.zfill 2 (Py.str (Py.Int n))) /\
  fips_to_id (Py.Int n) = fips_to_id (Py.Str (Py.zfill 2 (Py.str (Py.Int n))))
  /\ id_to_fips (fips_to_id (Py.Int n)) = Some (Py.zfill 2 (Py.str (Py.Int n))).
Proof.
  intros Hn.
  pose proof id_to_fips_fips_to_id_int as F.
  rewrite forallb_forall in F.
  specialize (F (Z.to_nat n)).
  rewrite Z2Nat.id in F by lia.
  assert (In (Z.to_nat n) (seq 0 100)) as I by (apply in_seq; lia).
  specialize (F I).
  destruct (id_to_fips (fips_to_id (Py.Int n))) as [c|] eqn:E; [|discriminate].
  apply String.eqb_eq in F. subst c.
  assert (valid_code (Py.zfill 2 (Py.str (Py.Int n)))) as V.
  { apply id_to_fips_Some in E.
    destruct E as (d1 & d2 & rest & D1 & D2 & E & _).
    exists d1, d2. repeat split; assumption. }
  split; [exact V|]. split; [|reflexivity].
  unfold fips_to_id.
  destruct V as (d1 & d2 & _ & _ & V). rewrite V. reflexivity.
Qed.

Lemma int_code_round_trip_witness :
  valid_code (Py.zfill 2 (Py.str (Py.Int 9))) /\
  fips_to_id (Py.Int 9) = fips_to_id (Py.Str (Py.zfill 2 (Py.str (Py.Int 9))))
  /\ id_to_fips (fips_to_id (Py.Int 9)) = Some (Py.zfill 2 (Py.str (Py.Int 9))).
Proof. apply (int_code_round_trip 9). lia. Defined.

(** Two codes get the same series identifier exactly when their
    zero-filled forms are the same, as for [9], ["9"] and ["09"]. *)
Theorem fips_to_id_same_iff (a b : Py.value) :
  fips_to_id a = fips_to_id b <->
  Py.zfill 2 (Py.str a) = Py.zfill 2 (Py.str b).
Proof.
  unfold fips_to_id, series_prefix. split.
  - intros H. simpl in H. injection H as H.
    now apply append_cancel_r in H.
  - intros ->. reflexivity.
Qed.

(** ** Dictionaries *)

Lemma dict_get_set_other {V : Type} (k k' : string) (v : V) (d : dict V) :
  k <> k' -> dict_get k (dict_set k' v d) = dict_get k d.
Proof.
  intros N. induction d as [|[k0 v0] d IH]; simpl.
  - destruct (String.eqb_spec k k'); [contradiction | reflexivity].
  - destruct (String.eqb_spec k' k0) as [E|N0]; simpl.
    + subst k0.
      destruct (String.eqb_spec k k'); [contradiction | reflexivity].
    + destruct (String.eqb_spec k k0); [reflexivity | exact IH].
Qed.

Lemma keys_dict_set {V : Type} (k : string) (v : V) (d : dict V) (x : string) :
  In x (keys (dict_set k v d)) <-> x = k \/ In x (keys d).
Proof.
  induction d as [|[k0 v0] d IH]; simpl.
  - intuition.
  - destruct (String.eqb_spec k k0) as [->|N]; simpl.
    + intuition.
    + rewrite IH. intuition.
Qed.

Lemma NoDup_dict_set {V : Type} (k : string) (v : V) (d : dict V) :
  NoDup (keys d) -> NoDup (keys (dict_set k v d)).
Proof.
  induction d as [|[k0 v0] d IH]; simpl; intros H.
  - constructor; [intros [] | constructor].
  - inversion H as [|? ? Hn Hd]; subst.
    destruct (String.eqb_spec k k0) as [->|N]; simpl.
    + constructor; assumption.
    + constructor; [|now apply IH].
      intros I. apply (keys_dict_set k v d k0) in I.
      destruct I as [E|I]; [congruence | contradiction].
Qed.

Lemma dict_get_In {V : Type} (k : string) (v : V) (d : dict V) :
  dict_get k d = Some v -> In (k, v) d.
Proof.
  induction d as [|[k0 v0] d IH]; simpl; [discriminate|].
  destruct (String.eqb_spec k k0) as [->|N].
  - intros [= ->]. now left.
  - intros H. right. now apply IH.
Qed.

Lemma dict_get_keys {V : Type} (k : string) (d : dict V) :
  In k (keys d) <-> exists v, dict_get k d = Some v.
Proof.
  induction d as [|[k0 v0] d IH]; simpl.
  - split; [intros [] | intros [v H]; discriminate].
  - destruct (String.eqb_spec k k0) as [->|N].
    + split; [intros _; now exists v0 | intros _; now left].
    + rewrite <- IH. split; [intros [E|I]; [congruence | exact I] | now right].
Qed.

Lemma Forall_dict_set {V : Type} (Q : V -> Prop) (k : string) (v : V)
    (d : dict V) :
  Q v -> Forall (fun kv => Q (snd kv)) d ->
  Forall (fun kv => Q (snd kv)) (dict_set k v d).
Proof.
  intros Hv. induction d as [|[k0 v0] d IH]; simpl; intros H.
  - constructor; [exact Hv | constructor].
  - inversion H; subst.
    destruct (String.eqb k k0); constructor; auto.
Qed.

(** ** Period keys *)

Lemma has_char_append (c : ascii) (a b : string) :
  has_char c (a ++ b) = (has_char c a || has_char c b)%bool.
Proof.
  induction a as [|x a IH]; simpl; [reflexivity|].
  rewrite IH. now rewrite orb_assoc.
Qed.

(** A period key holds a hyphen, so it is never one of the labels
    ["state"] and ["fips"]. *)
Lemma year_period_has_hyphen (it : item) :
  has_char "-" (year_period it) = true.
Proof.
  unfold year_period, Py.join. cbn [String.concat].
  rewrite has_char_append. simpl. apply orb_true_r.
Qed.

Lemma year_period_not_label (it : item) :
  year_period it <> "state" /\ year_period it <> "fips".
Proof.
  pose proof (year_period_has_hyphen it) as H.
  split; intros E; rewrite E in H; discriminate H.
Qed.

(** ** Table assembler: the rows it builds *)

Section Rows.

Variable us : us_states.

Lemma steps_app (a b : list (string * item)) :
  forall rows : dict row,
    steps us (a ++ b) rows = obind (steps us a rows) (steps us b).
Proof.
  induction a as [|o a IH]; intros rows; simpl.
  - reflexivity.
  - destruct (item_step us (fst o) rows (snd o)); simpl; [apply IH | reflexivity].
Qed.

Lemma for_items_steps (sid : string) (items : list item) :
  forall rows : dict row,
    for_items us sid items rows = steps us (map (pair sid) items) rows.
Proof.
  induction items as [|it items IH]; intros rows; simpl.
  - reflexivity.
  - destruct (item_step us sid rows it); simpl; [apply IH | reflexivity].
Qed.

(** The two nested [for] loops are the loop body run over the
    observations in order. *)
Lemma for_series_steps (l : list series) :
  forall rows : dict row,
    for_series us l rows = steps us (observations l) rows.
Proof.
  induction l as [|s l IH]; intros rows; simpl.
  - reflexivity.
  - rewrite steps_app, for_items_steps.
    destruct (steps us (map (pair (seriesID s)) (data s)) rows); simpl;
      [apply IH | reflexivity].
Qed.

(** What one round of the loop body does to [rows] when it does not
    raise. *)
Lemma item_step_Ret (sid : string) (rows rows1 : dict row) (it : item) :
  item_step us sid rows it = Ret rows1 ->
  exists st : State,
    lookup us (id_to_fips sid) = Ret (Some st) /\
    rows1 = dict_set sid
              (dict_set (year_period it) (Some (value it))
                 match dict_get sid rows with
                 | Some r => r
                 | None => new_row (abbr st) (id_to_fips sid)
                 end) rows.
Proof.
  unfold item_step. intros H.
  destruct (lookup us (id_to_fips sid)) as [[st|]|e]; simpl in H;
    try discriminate.
  injection H as <-. exists st. split; reflexivity.
Qed.

(** A property of [rows] that one round keeps is kept by the loops. *)
Lemma steps_invariant (P : dict row -> Prop) :
  (forall sid rows it rows1,
      P rows -> item_step us sid rows it = Ret rows1 -> P rows1) ->
  forall (obs : list (string * item)) (rows rows2 : dict row),
    P rows -> steps us obs rows = Ret rows2 -> P rows2.
Proof.
  intros Hstep obs. induction obs as [|o obs IH]; intros rows rows2 HP H;
    simpl in H.
  - now injection H as <-.
  - destruct (item_step us (fst o) rows (snd o)) as [rows1|e] eqn:E;
      simpl in H; [|discriminate].
    apply (IH rows1); [|exact H]. now apply (Hstep (fst o) rows (snd o)).
Qed.

Lemma item_step_identified (sid : string) (rows rows1 : dict row) (it : item) :
  identified us rows -> item_step us sid rows it = Ret rows1 ->
  identified us rows1.
Proof.
  intros I H. apply item_step_Ret in H. destruct H as (st & L & ->).
  intros sid2 r2 G.
  destruct (string_dec sid2 sid) as [->|N].
  - rewrite dict_get_set_same in G. injection G as <-.
    destruct (year_period_not_label it) as [Ns Nf].
    rewrite !dict_get_set_other by congruence.
    destruct (dict_get sid rows) as [r|] eqn:R.
    + exact (I sid r R).
    + exists st. repeat split; [exact L].
  - rewrite dict_get_set_other in G by exact N. exact (I sid2 r2 G).
Qed.

Lemma item_step_unique_keys (sid : string) (rows rows1 : dict row) (it : item) :
  unique_keys rows -> item_step us sid rows it = Ret rows1 ->
  unique_keys rows1.
Proof.
  intros [U F] H. apply item_step_Ret in H. destruct H as (st & _ & ->).
  split.
  - now apply NoDup_dict_set.
  - apply (Forall_dict_set (fun r : row => NoDup (keys r))); [|exact F].
    apply NoDup_dict_set.
    destruct (dict_get sid rows) as [r|] eqn:R.
    + apply dict_get_In in R.
      rewrite Forall_forall in F. exact (F (sid, r) R).
    + unfold new_row, keys. simpl.
      constructor; [|constructor; [intros []|constructor]].
      intros [E|[]]. discriminate E.
Qed.

Lemma item_step_keys_from (p : list (string * item)) (sid : string)
    (rows rows1 : dict row) (it : item) :
  keys_from p rows -> item_step us sid rows it = Ret rows1 ->
  keys_from (p ++ [(sid, it)]) rows1.
Proof.
  intros K H. apply item_step_Ret in H. destruct H as (st & _ & ->).
  intros sid2. destruct (K sid2) as [K1 K2]. split.
  - rewrite keys_dict_set, K1. split.
    + intros [->|[it2 I]].
      * exists it. apply in_or_app. right. now left.
      * exists it2. apply in_or_app. now left.
    + intros [it2 I]. apply in_app_or in I. destruct I as [I|[[= <- <-]|[]]].
      * right. now exists it2.
      * now left.
  - intros r2 G k.
    destruct (string_dec sid2 sid) as [->|N].
    + rewrite dict_get_set_same in G. injection G as <-.
      rewrite keys_dict_set.
      assert (In k (keys match dict_get sid rows with
                         | Some r => r
                         | None => new_row (abbr st) (id_to_fips sid)
                         end) <->
              k = "state" \/ k = "fips" \/
              exists it2, In (sid, it2) p /\ year_period it2 = k) as B.
      { destruct (dict_get sid rows) as [r|] eqn:R.
        - exact (K2 r eq_refl k).
        - assert (~ exists it2, In (sid, it2) p) as NP.
          { rewrite <- K1. rewrite dict_get_keys. intros [v V]. congruence. }
          unfold new_row, keys. simpl. split.
          + intros [<-|[<-|[]]]; [now left | right; now left].
          + intros [->|[->|[it2 [I _]]]];
              [now left | right; now left | exfalso; apply NP; now exists it2]. }
      rewrite B. split.
      * intros [->|[Hs|[Hf|[it2 [I E]]]]].
        -- right. right. exists it. split; [|reflexivity].
           apply in_or_app. right. now left.
        -- now left.
        -- right. now left.
        -- right. right. exists it2. split; [|exact E].
           apply in_or_app. now left.
      * intros [Hs|[Hf|[it2 [I E]]]].
        -- right. now left.
        -- right. right. now left.
        -- apply in_app_or in I. destruct I as [I|[[= <-]|[]]].
           ++ right. right. right. now exists it2.
           ++ left. now symmetry.
    + rewrite dict_get_set_other in G by exact N.
      rewrite (K2 r2 G k). split.
      * intros [Hs|[Hf|[it2 [I E]]]]; [now left | right; now left |].
        right. right. exists it2. split; [|exact E]. apply in_or_app. now left.
      * intros [Hs|[Hf|[it2 [I E]]]]; [now left | right; now left |].
        apply in_app_or in I. destruct I as [I|[[= E2 _]|[]]].
        -- right. right. now exists it2.
        -- congruence.
Qed.

Lemma steps_keys_from (obs : list (string * item)) :
  forall (p : list (string * item)) (rows rows2 : dict row),
    keys_from p rows -> steps us obs rows = Ret rows2 ->
    keys_from (p ++ obs) rows2.
Proof.
  induction obs as [|[sid it] obs IH]; intros p rows rows2 K H; simpl in H.
  - injection H as <-. now rewrite app_nil_r.
  - destruct (item_step us sid rows it) as [rows1|e] eqn:E; simpl in H;
      [|discriminate].
    replace (p ++ (sid, it) :: obs)%list with ((p ++ [(sid, it)]) ++ obs)%list
      by (rewrite <- app_assoc; reflexivity).
    apply (IH _ rows1); [|exact H].
    now apply (item_step_keys_from p sid rows).
Qed.

(** A cell that a round does not write keeps its content. *)
Lemma item_step_keeps_cell (sid sid2 k : string) (rows rows1 : dict row)
    (it : item) (r : row) (c : option string) :
  item_step us sid rows it = Ret rows1 ->
  dict_get sid2 rows = Some r -> dict_get k r = Some c ->
  (sid2, k) <> (sid, year_period it) ->
  exists r1, dict_get sid2 rows1 = Some r1 /\ dict_get k r1 = Some c.
Proof.
  intros H R C N. apply item_step_Ret in H. destruct H as (st & _ & ->).
  destruct (string_dec sid2 sid) as [->|Ns].
  - rewrite dict_get_set_same. eexists. split; [reflexivity|].
    rewrite R. rewrite dict_get_set_other by congruence. exact C.
  - rewrite dict_get_set_other by exact Ns. now exists r.
Qed.

Lemma steps_keeps_cell (obs : list (string * item)) (sid2 k : string)
    (c : option string) :
  ~ In (sid2, k) (map cell_of obs) ->
  forall (rows rows2 : dict row) (r : row),
    steps us obs rows = Ret rows2 ->
    dict_get sid2 rows = Some r -> dict_get k r = Some c ->
    exists r2, dict_get sid2 rows2 = Some r2 /\ dict_get k r2 = Some c.
Proof.
  induction obs as [|[sid it] obs IH]; intros N rows rows2 r H R C;
    simpl in H.
  - injection H as <-. now exists r.
  - destruct (item_step us sid rows it) as [rows1|e] eqn:E; simpl in H;
      [|discriminate].
    simpl in N.
    destruct (item_step_keeps_cell sid sid2 k rows rows1 it r c E R C)
      as (r1 & R1 & C1).
    { intros Q. apply N. left. unfold cell_of. simpl. now symmetry. }
    apply (IH (fun I => N (or_intror I)) rows1 rows2 r1 H R1 C1).
Qed.

End Rows.

(** ** Table assembler: the table it returns *)

Section Table.

Context {DataFrame : Type}.
Variable pd : pandas DataFrame.
Variable us : us_states.
Variable API_KEY : string.
Variable post : request -> response.

(** A table that is returned is made of the rows that the two loops build
    from the series list of the response, starting from no rows. *)
Lemma download_employment_data_rows (fips_list : list Py.value)
    (start_year end_year : Z) (tr tr1 : trace) (df : DataFrame) :
  download_employment_data pd us API_KEY post fips_list start_year end_year tr
  = Ret (Some df, tr1) ->
  exists (l : list series) (rows : dict row),
    Results_series (post (request_of API_KEY fips_list start_year end_year))
    = Some l /\
    for_series us l [] = Ret rows /\
    df = DataFrame_T pd rows.
Proof.
  unfold download_employment_data.
  destruct (Results_series _) as [l|]; [|discriminate].
  destruct (for_series us l []) as [rows|e] eqn:F; simpl; [|discriminate].
  intros [= <- _]. exists l, rows. repeat split. exact F.
Qed.

(** Every row of a returned table is identified: its ["state"] cell is the
    abbreviation of the state that [lookup] finds for the series, its
    ["fips"] cell is the code read from the series identifier, and no
    observation has overwritten either. *)
Theorem table_rows_identified (fips_list : list Py.value)
    (start_year end_year : Z) (tr tr1 : trace) (df : DataFrame) :
  download_employment_data pd us API_KEY post fips_list start_year end_year tr
  = Ret (Some df, tr1) ->
  exists (l : list series) (rows : dict row),
    Results_series (post (request_of API_KEY fips_list start_year end_year))
    = Some l /\
    for_series us l [] = Ret rows /\
    df = DataFrame_T pd rows /\
    identified us rows.
Proof.
  intros H. apply download_employment_data_rows in H.
  destruct H as (l & rows & R & F & E).
  exists l, rows.
  split; [exact R|]. split; [exact F|]. split; [exact E|].
  rewrite for_series_steps in F.
  apply (steps_invariant us (identified us)) with (3 := F).
  - intros sid rows0 it rows1. apply item_step_identified.
  - intros sid r G. discriminate G.
Qed.

(** The rows that the assembler hands to [pd.DataFrame] have one entry for
    each series of the response that has at least one observation, and no
    other entry; the keys of an entry are ["state"], ["fips"] and the
    period keys of the observations of its series, none missing and none
    added.  (In the frame made of them every row has every column; a cell
    without a key here is a missing value there.) *)
Theorem table_keys_from_observations (fips_list : list Py.value)
    (start_year end_year : Z) (tr tr1 : trace) (df : DataFrame) :
  download_employment_data pd us API_KEY post fips_list start_year end_year tr
  = Ret (Some df, tr1) ->
  exists (l : list series) (rows : dict row),
    Results_series (post (request_of API_KEY fips_list start_year end_year))
    = Some l /\
    for_series us l [] = Ret rows /\
    df = DataFrame_T pd rows /\
    keys_from (observations l) rows.
Proof.
  intros H. apply download_employment_data_rows in H.
  destruct H as (l & rows & R & F & E).
  exists l, rows.
  split; [exact R|]. split; [exact F|]. split; [exact E|].
  rewrite for_series_steps in F.
  apply (steps_keys_from us (observations l) [] [] rows); [|exact F].
  intros sid. split.
  - simpl. split; [intros [] | intros [it []]].
  - intros r G. discriminate G.
Qed.

(** In a returned table no series has two rows and no row has the same
    label twice: an observation whose period key is already in the row
    replaces the cell instead of adding one. *)
Theorem table_keys_unique (fips_list : list Py.value)
    (start_year end_year : Z) (tr tr1 : trace) (df : DataFrame) :
  download_employment_data pd us API_KEY post fips_list start_year end_year tr
  = Ret (Some df, tr1) ->
  exists (l : list series) (rows : dict row),
    Results_series (post (request_of API_KEY fips_list start_year end_year))
    = Some l /\
    for_series us l [] = Ret rows /\
    df = DataFrame_T pd rows /\
    unique_keys rows.
Proof.
  intros H. apply download_employment_data_rows in H.
  destruct H as (l & rows & R & F & E).
  exists l, rows.
  split; [exact R|]. split; [exact F|]. split; [exact E|].
  rewrite for_series_steps in F.
  apply (steps_invariant us unique_keys) with (3 := F).
  - intros sid rows0 it rows1. apply item_step_unique_keys.
  - split; constructor.
Qed.

(** The cell of a series and a period holds the value of the last
    observation of the response that goes to it: an observation after
    which no other has the same series identifier and period key is found
    in the returned table with its value. *)
Theorem table_cell_last_observation (fips_list : list Py.value)
    (start_year end_year : Z) (tr tr1 : trace) (df : DataFrame) :
  download_employment_data pd us API_KEY post fips_list start_year end_year tr
  = Ret (Some df, tr1) ->
  exists (l : list series) (rows : dict row),
    Results_series (post (request_of API_KEY fips_list start_year end_year))
    = Some l /\
    for_series us l [] = Ret rows /\
    df = DataFrame_T pd rows /\
    forall (a b : list (string * item)) (sid : string) (it : item),
      observations l = (a ++ (sid, it) :: b)%list ->
      ~ In (sid, year_period it) (map cell_of b) ->
      exists r : row,
        dict_get sid rows = Some r /\
        dict_get (year_period it) r = Some (Some (value it)).
Proof.
  intros H. apply download_employment_data_rows in H.
  destruct H as (l & rows & R & F & E).
  exists l, rows.
  split; [exact R|]. split; [exact F|]. split; [exact E|].
  intros a b sid it O N.
  rewrite for_series_steps, O, steps_app in F.
  destruct (steps us a []) as [rows0|e]; simpl in F; [|discriminate].
  destruct (item_step us sid rows0 it) as [rows1|e] eqn:S; simpl in F;
    [|discriminate].
  apply item_step_Ret in S. destruct S as (st & _ & ->).
  eapply (steps_keeps_cell us b sid (year_period it) (Some (value it)) N
            _ rows _ F).
  - apply dict_get_set_same.
  - apply dict_get_set_same.
Qed.

(** A response whose series list is present but holds no observation, an
    empty list included, gives the table of no rows, not the absent
    value; no state is looked up for it. *)
Theorem table_of_no_observations (fips_list : list Py.value)
    (start_year end_year : Z) (tr : trace) (l : list series) :
  Results_series (post (request_of API_KEY fips_list start_year end_year))
  = Some l ->
  observations l = [] ->
  download_employment_data pd us API_KEY post fips_list start_year end_year tr
  = Ret (Some (DataFrame_T pd []),
         (tr ++ [Call fips_list start_year end_year])%list).
Proof.
  intros R O. unfold download_employment_data. rewrite R.
  rewrite for_series_steps, O. reflexivity.
Qed.

End Table.

Lemma table_rows_identified_witness :
  exists (l : list series) (rows : dict row),
    Results_series (Stub.always Stub.ct_2008
                      (request_of "key" [Py.Str "09"; Py.Str "36"] 2008 2008))
    = Some l /\
    for_series (Stub.us Stub.three) l [] = Ret rows /\
    ct_2008_rows = DataFrame_T Stub.pd rows /\
    identified (Stub.us Stub.three) rows.
Proof.
  apply (table_rows_identified Stub.pd (Stub.us Stub.three) "key"
           (Stub.always Stub.ct_2008) [Py.Str "09"; Py.Str "36"] 2008 2008
           [] ct_2008_trace ct_2008_rows).
  reflexivity.
Defined.

Lemma table_keys_from_observations_witness :
  exists (l : list series) (rows : dict row),
    Results_series (Stub.always Stub.ct_2008
                      (request_of "key" [Py.Str "09"; Py.Str "36"] 2008 2008))
    = Some l /\
    for_series (Stub.us Stub.three) l [] = Ret rows /\
    ct_2008_rows = DataFrame_T Stub.pd rows /\
    keys_from (observations l) rows.
Proof.
  apply (table_keys_from_observations Stub.pd (Stub.us Stub.three) "key"
           (Stub.always Stub.ct_2008) [Py.Str "09"; Py.Str "36"] 2008 2008
           [] ct_2008_trace ct_2008_rows).
  reflexivity.
Defined.

Lemma table_keys_unique_witness :
  exists (l : list series) (rows : dict row),
    Results_series (Stub.always Stub.ct_2008
                      (request_of "key" [Py.Str "09"; Py.Str "36"] 2008 2008))
    = Some l /\
    for_series (Stub.us Stub.three) l [] = Ret rows /\
    ct_2008_rows = DataFrame_T Stub.pd rows /\
    unique_keys rows.
Proof.
  apply (table_keys_unique Stub.pd (Stub.us Stub.three) "key"
           (Stub.always Stub.ct_2008) [Py.Str "09"; Py.Str "36"] 2008 2008
           [] ct_2008_trace ct_2008_rows).
  reflexivity.
Defined.

Lemma table_cell_last_observation_witness :
  exists (l : list series) (rows : dict row),
    Results_series (Stub.always Stub.ct_2008
                      (request_of "key" [Py.Str "09"; Py.Str "36"] 2008 2008))
    = Some l /\
    for_series (Stub.us Stub.three) l [] = Ret rows /\
    ct_2008_rows = DataFrame_T Stub.pd rows /\
    forall (a b : list (string * item)) (sid : string) (it : item),
      observations l = (a ++ (sid, it) :: b)%list ->
      ~ In (sid, year_period it) (map cell_of b) ->
      exists r : row,
        dict_get sid rows = Some r /\
        dict_get (year_period it) r = Some (Some (value it)).
Proof.
  apply (table_cell_last_observation Stub.pd (Stub.us Stub.three) "key"
           (Stub.always Stub.ct_2008) [Py.Str "09"; Py.Str "36"] 2008 2008
           [] ct_2008_trace ct_2008_rows).
  reflexivity.
Defined.

Lemma table_of_no_observations_witness :
  download_employment_data Stub.pd (Stub.us Stub.three) "key"
    (Stub.always [ {| seriesID := "SMS36000000000000001"; data := [] |} ])
    [Py.Str "36"] 2008 2008 []
  = Ret (Some (DataFrame_T Stub.pd []), [Call [Py.Str "36"] 2008 2008]).
Proof.
  apply (table_of_no_observations Stub.pd (Stub.us Stub.three) "key"
           (Stub.always [ {| seriesID := "SMS36000000000000001"; data := [] |} ])
           [Py.Str "36"] 2008 2008 []
           [ {| seriesID := "SMS36000000000000001"; data := [] |} ]).
  - reflexivity.
  - reflexivity.
Defined.

(** ** Chunked fetcher: termination, number of calls, runs without data *)

Lemma exact_windows_count (y hi : Z) (ws : list (Z * Z)) :
  0 < y ->
  forall lo : Z,
    exact_windows y lo hi ws -> len ws = ceil_div (Z.max 0 (hi - lo)) y.
Proof.
  intros Hy. unfold ceil_div, len.
  induction ws as [|[s e] ws IH]; intros lo H; simpl in H.
  - rewrite Z.max_l by lia. simpl. symmetry. apply Z.div_small. lia.
  - destruct H as (Hlt & _ & _ & H).
    apply IH in H. cbn [List.length]. rewrite Nat2Z.inj_succ, H.
    rewrite (Z.max_r 0 (hi - lo)) by lia.
    destruct (Z.le_gt_cases (lo + y) hi) as [Hfit|Hover].
    + rewrite Z.max_r by lia.
      replace (hi - lo + y - 1) with (hi - (lo + y) + y - 1 + 1 * y) by lia.
      rewrite Z.div_add by lia. lia.
    + rewrite Z.max_l by lia.
      rewrite (Z.div_small (0 + y - 1) y) by lia.
      apply (Z.div_unique _ y _ (hi - lo - 1)); lia.
Qed.

Lemma exact_windows_nth (y hi : Z) (ws : list (Z * Z)) :
  forall (lo : Z) (k : nat),
    exact_windows y lo hi ws -> (k < List.length ws)%nat ->
    nth k ws (0, 0)
    = (lo + Z.of_nat k * y, Z.min (hi - 1) (lo + Z.of_nat k * y + y - 1)).
Proof.
  induction ws as [|[s e] ws IH]; intros lo k H Hk; simpl in H, Hk.
  - lia.
  - destruct H as (_ & -> & -> & H).
    destruct k as [|k].
    + simpl. f_equal; f_equal; lia.
    + cbn [nth]. rewrite (IH (lo + y) k H) by lia.
      f_equal; [|f_equal]; lia.
Qed.

Section Runs.

Context {DataFrame : Type}.
Variable pd : pandas DataFrame.
Variable us : us_states.
Variable API_KEY : string.
Variable post : request -> response.

(** The function as it is in the source, with its limits of 50 and 20,
    ends for every list of states and every pair of years: with more fuel
    than there are states and years, neither [while] loop runs out of
    it. *)
Theorem download_all_employment_data_terminates
    (fuel : nat) (start_year end_year : Z) :
  Z.max (len (STATES us)) (end_year - start_year) < Z.of_nat fuel ->
  download_all_employment_data pd us API_KEY post fuel start_year end_year
  <> Timeout.
Proof.
  intros H. unfold download_all_employment_data.
  apply download_all_employment_data_with_fuel; [lia | lia | exact H].
Qed.

(** A run that returns has issued [ceil((end_year - start_year) / y)]
    remote calls, all of them for the first region group: the [k]-th asks
    for the years [start_year + k * y] to
    [min(end_year - 1, start_year + k * y + y - 1)]. *)
Theorem calls_of_a_run (fips_interval y : Z) (fuel : nat)
    (start_year end_year : Z) (df : DataFrame) (tr : trace) :
  0 < y -> start_year <= end_year ->
  download_all_employment_data_with pd us API_KEY post
    fips_interval y fuel start_year end_year = Done (df, tr) ->
  len (calls_of tr) = ceil_div (end_year - start_year) y /\
  Forall (fun c => fst c = map Py.Str (hd [] (groups_of tr))) (calls_of tr) /\
  forall k : nat,
    (k < List.length (calls_of tr))%nat ->
    nth k (windows_of tr) (0, 0)
    = (start_year + Z.of_nat k * y,
       Z.min (end_year - 1) (start_year + Z.of_nat k * y + y - 1)).
Proof.
  intros Hy Hse H.
  apply download_all_employment_data_with_Done in H; [|exact Hy].
  destruct H as (g & G & ws & HG & _ & HC & HW).
  replace (start_year + Z.max 0 (end_year - start_year)) with end_year
    in HW by lia.
  rewrite (windows_of_first_group _ _ _ HC), HC, HG. simpl hd.
  split; [|split].
  - unfold len. rewrite length_map.
    rewrite <- (Z.max_r 0 (end_year - start_year)) by lia.
    apply (exact_windows_count y end_year ws Hy start_year HW).
  - apply Forall_forall. intros c I. apply in_map_iff in I.
    destruct I as (w & <- & _). reflexivity.
  - intros k Hk. rewrite length_map in Hk.
    apply (exact_windows_nth y end_year ws start_year k HW Hk).
Qed.

Section NoFrames.

Variables fips_interval year_interval : Z.
Variable fips_codes : list string.
Variable years : range.
Variable year_fuel : nat.

Hypothesis year_interval_pos : 0 < year_interval.

(** The inner loop, entered without a frame, never raises and leaves
    without a frame. *)
Hypothesis year_loop_None :
  forall (g : list string) (i : Z) (tr : trace),
    0 <= i ->
    match year_loop pd us API_KEY post year_interval years
                    year_fuel g i None tr with
    | Done (_, f, _) => f = None
    | Raised _ => False
    | Timeout => True
    end.

Lemma frames_of_app (a b : list (option DataFrame)) :
  frames_of (a ++ b) = (frames_of a ++ frames_of b)%list.
Proof. unfold frames_of. apply flat_map_app. Qed.

Lemma fips_loop_no_frames (fuel : nat) :
  forall (fips_index year_index : Z) (fips_frames : list (option DataFrame))
         (tr : trace),
    0 <= year_index -> frames_of fips_frames = [] ->
    match fips_loop pd us API_KEY post fips_interval year_interval
                    fips_codes years year_fuel fuel
                    fips_index year_index fips_frames tr with
    | Done (frames, _) => frames_of frames = []
    | Raised _ => False
    | Timeout => True
    end.
Proof.
  induction fuel as [|fuel IH]; intros fi yi frames tr Hyi HF; simpl.
  - exact I.
  - destruct (Z.ltb_spec fi (len fips_codes)) as [Hlt|Hge]; [|exact HF].
    pose proof (year_loop_None
                  (slice fips_codes fi
                     (Z.min (fi + fips_interval) (len fips_codes - 1)))
                  yi
                  (tr ++ [Group (slice fips_codes fi
                                   (Z.min (fi + fips_interval)
                                          (len fips_codes - 1)))])%list
                  Hyi) as Y.
    destruct (year_loop _ _ _ _ _ _ _ _ _ _ _) as [[[yi1 f1] tr1]| |] eqn:E;
      simpl; [| contradiction | exact I].
    subst f1.
    apply year_loop_Done in E; [|exact year_interval_pos|exact Hyi].
    destruct E as (ws & _ & _ & _ & L2).
    apply IH; [lia|].
    rewrite frames_of_app, HF. reflexivity.
Qed.

End NoFrames.

Lemma concat_no_frames (objs : list (option DataFrame)) :
  frames_of objs = [] -> concat pd objs = Raise ValueError.
Proof.
  intros H. unfold concat. destruct objs; [reflexivity|]. now rewrite H.
Qed.

Lemma download_all_without_data (fips_interval year_interval : Z)
    (fuel : nat) (start_year end_year : Z) :
  (forall r : request, Results_series (post r) = None) ->
  0 < fips_interval -> 0 < year_interval ->
  Z.max (len (STATES us)) (end_year - start_year) < Z.of_nat fuel ->
  download_all_employment_data_with pd us API_KEY post
    fips_interval year_interval fuel start_year end_year
  = Raised ValueError.
Proof.
  intros Hno Hm Hy Hf.
  pose proof (download_all_employment_data_with_fuel pd us API_KEY post
                fips_interval year_interval fuel start_year end_year
                Hm Hy Hf) as NT.
  unfold download_all_employment_data_with in *.
  pose proof (fips_loop_no_frames fips_interval year_interval
                (map fips (STATES us))
                {| range_start := start_year; range_stop := end_year |}
                fuel Hy) as FL.
  assert (forall (g : list string) (i : Z) (tr : trace),
             0 <= i ->
             match year_loop pd us API_KEY post year_interval
                     {| range_start := start_year; range_stop := end_year |}
                     fuel g i None tr with
             | Done (_, f, _) => f = None
             | Raised _ => False
             | Timeout => True
             end) as YL.
  { clear NT FL Hf. induction fuel as [|fuel0 IH]; intros g i tr Hi; simpl.
    - exact I.
    - destruct (Z.ltb_spec i
                  (range_len {| range_start := start_year;
                                range_stop := end_year |})) as [Hlt|Hge];
        [|reflexivity].
      rewrite (range_getitem_ok _ i) by lia.
      rewrite (range_getitem_ok _ (Z.min _ _)) by lia.
      simpl. unfold download_employment_data. rewrite Hno. simpl.
      apply IH. lia. }
  specialize (FL YL fuel 0 0 [] [] ltac:(lia) eq_refl).
  destruct (fips_loop _ _ _ _ _ _ _ _ _ _ _ _ _ _) as [[frames tr]| |];
    simpl in *.
  - rewrite (concat_no_frames frames FL). reflexivity.
  - contradiction.
  - contradiction.
Qed.

(** When the service has no data for any request, no frame is ever made
    and [pd.concat] is left with nothing: the fetcher raises
    [ValueError]. *)
Theorem no_data_anywhere_raises (fips_interval year_interval : Z)
    (fuel : nat) (start_year end_year : Z) :
  (forall r : request, Results_series (post r) = None) ->
  0 < fips_interval -> 0 < year_interval ->
  Z.max (len (STATES us)) (end_year - start_year) < Z.of_nat fuel ->
  download_all_employment_data_with pd us API_KEY post
    fips_interval year_interval fuel start_year end_year
  = Raised ValueError.
Proof.
  intros Hno Hm Hy Hf. now apply download_all_without_data.
Qed.

(** For an empty range of years, [end_year <= start_year], the fetcher
    issues no call and raises [ValueError], whatever the service would
    answer. *)
Theorem empty_year_range_raises (fips_interval year_interval : Z)
    (fuel : nat) (start_year end_year : Z) :
  end_year <= start_year ->
  0 < fips_interval -> 0 < year_interval ->
  len (STATES us) < Z.of_nat fuel ->
  download_all_employment_data_with pd us API_KEY post
    fips_interval year_interval fuel start_year end_year
  = Raised ValueError.
Proof.
  intros He Hm Hy Hf.
  assert (Z.max (len (STATES us)) (end_year - start_year) < Z.of_nat fuel)
    as Hf2 by (unfold len in *; lia).
  pose proof (download_all_employment_data_with_fuel pd us API_KEY post
                fips_interval year_interval fuel start_year end_year
                Hm Hy Hf2) as NT.
  unfold download_all_employment_data_with in *.
  pose proof (fips_loop_no_frames fips_interval year_interval
                (map fips (STATES us))
                {| range_start := start_year; range_stop := end_year |}
                fuel Hy) as FL.
  assert (forall (g : list string) (i : Z) (tr : trace),
             0 <= i ->
             match year_loop pd us API_KEY post year_interval
                     {| range_start := start_year; range_stop := end_year |}
                     fuel g i None tr with
             | Done (_, f, _) => f = None
             | Raised _ => False
             | Timeout => True
             end) as YL.
  { intros g i tr Hi. destruct fuel as [|fuel0]; simpl; [exact I|].
    destruct (Z.ltb_spec i
                (range_len {| range_start := start_year;
                              range_stop := end_year |})) as [Hlt|Hge];
      [|reflexivity].
    unfold range_len in Hlt. simpl in Hlt. lia. }
  specialize (FL YL fuel 0 0 [] [] ltac:(lia) eq_refl).
  destruct (fips_loop _ _ _ _ _ _ _ _ _ _ _ _ _ _) as [[frames tr]| |];
    simpl in *.
  - rewrite (concat_no_frames frames FL). reflexivity.
  - contradiction.
  - contradiction.
Qed.

End Runs.

Lemma region_groups_of_run_witness :
  len (groups_of (Stub.trace_of Stub.run_fifty_one))
  = ceil_div (len (map fips (STATES (Stub.us Stub.fifty_one)))) 50 /\
  Forall (fun g => len g <= 50) (groups_of (Stub.trace_of Stub.run_fifty_one))
  /\ List.concat (groups_of (Stub.trace_of Stub.run_fifty_one))
     = removelast (map fips (STATES (Stub.us Stub.fifty_one))).
Proof.
  apply (region_groups_of_run Stub.pd (Stub.us Stub.fifty_one) "key"
           (Stub.always Stub.ct_2008) 50 20 100 1991 2018
           (Stub.frame_of Stub.run_fifty_one)
           (Stub.trace_of Stub.run_fifty_one)).
  - lia.
  - lia.
  - vm_compute. reflexivity.
Defined.

Lemma download_all_employment_data_terminates_witness :
  download_all_employment_data Stub.pd (Stub.us Stub.fifty_one) "key"
    (Stub.always Stub.ct_2008) 100 1991 2018 <> Timeout.
Proof.
  apply (download_all_employment_data_terminates
           Stub.pd (Stub.us Stub.fifty_one) "key" (Stub.always Stub.ct_2008)
           100 1991 2018).
  vm_compute. reflexivity.
Defined.

Lemma calls_of_a_run_witness :
  len (calls_of (Stub.trace_of Stub.run_fifty_one))
  = ceil_div (2018 - 1991) 20 /\
  Forall (fun c => fst c
                   = map Py.Str
                       (hd [] (groups_of (Stub.trace_of Stub.run_fifty_one))))
         (calls_of (Stub.trace_of Stub.run_fifty_one)) /\
  forall k : nat,
    (k < List.length (calls_of (Stub.trace_of Stub.run_fifty_one)))%nat ->
    nth k (windows_of (Stub.trace_of Stub.run_fifty_one)) (0, 0)
    = (1991 + Z.of_nat k * 20,
       Z.min (2018 - 1) (1991 + Z.of_nat k * 20 + 20 - 1)).
Proof.
  apply (calls_of_a_run Stub.pd (Stub.us Stub.fifty_one) "key"
           (Stub.always Stub.ct_2008) 50 20 100 1991 2018
           (Stub.frame_of Stub.run_fifty_one)
           (Stub.trace_of Stub.run_fifty_one)).
  - lia.
  - lia.
  - vm_compute. reflexivity.
Defined.

Lemma no_data_anywhere_raises_witness :
  download_all_employment_data_with Stub.pd (Stub.us Stub.three) "key"
    Stub.no_data 50 20 30 1991 2018
  = Raised ValueError.
Proof.
  apply (no_data_anywhere_raises Stub.pd (Stub.us Stub.three) "key"
           Stub.no_data 50 20 30 1991 2018).
  - intros r. reflexivity.
  - lia.
  - lia.
  - vm_compute. reflexivity.
Defined.

Lemma empty_year_range_raises_witness :
  download_all_employment_data_with Stub.pd (Stub.us Stub.three) "key"
    (Stub.always Stub.ct_2008) 50 20 30 2018 2018
  = Raised ValueError.
Proof.
  apply (empty_year_range_raises Stub.pd (Stub.us Stub.three) "key"
           (Stub.always Stub.ct_2008) 50 20 30 2018 2018).
  - lia.
  - lia.
  - lia.
  - vm_compute. reflexivity.
Defined.

(** ** Chunked fetcher: the limits of the service and the table returned *)

Lemma tiles_Forall (y hi : Z) (ws : list (Z * Z)) :
  forall lo : Z,
    tiles y lo hi ws ->
    Forall (fun w => fst w <= snd w /\ snd w - fst w + 1 <= y) ws.
Proof.
  induction ws as [|[s e] ws IH]; intros lo H; simpl in H.
  - constructor.
  - destruct H as (_ & Hse & _ & Hy & H). constructor.
    + simpl. lia.
    + exact (IH (e + 1) H).
Qed.

Section Limits.

Context {DataFrame : Type}.
Variable pd : pandas DataFrame.
Variable us : us_states.
Variable API_KEY : string.
Variable post : request -> response.
Variables fips_interval year_interval : Z.

Hypothesis fips_interval_pos : 0 < fips_interval.
Hypothesis year_interval_pos : 0 < year_interval.

(** Every request of a run that returns stays within the two limits of the
    service: it names at most [fips_interval] series and asks for at least
    one and at most [year_interval] years. *)
Theorem requests_within_limits (fuel : nat) (start_year end_year : Z)
    (df : DataFrame) (tr : trace) :
  download_all_employment_data_with pd us API_KEY post
    fips_interval year_interval fuel start_year end_year = Done (df, tr) ->
  Forall (fun c =>
            len (seriesid (request_of API_KEY (fst c)
                             (fst (snd c)) (snd (snd c))))
            <= fips_interval /\
            fst (snd c) <= snd (snd c) /\
            snd (snd c) - fst (snd c) + 1 <= year_interval)
         (calls_of tr).
Proof.
  intros H.
  apply download_all_employment_data_with_Done in H;
    [|exact year_interval_pos].
  destruct H as (g & G & ws & _ & EG & -> & HW).
  apply exact_groups_sizes in EG; [|exact fips_interval_pos|lia].
  inversion EG as [|? ? Hg _]; subst.
  apply exact_windows_tiles in HW; [|exact year_interval_pos|lia].
  apply tiles_Forall in HW.
  rewrite Forall_forall in *. intros c I.
  apply in_map_iff in I. destruct I as (w & <- & I). simpl.
  split; [|exact (HW w I)].
  unfold len in *. rewrite !length_map. exact Hg.
Qed.

Variable fips_codes : list string.
Variable years : range.

Lemma fips_loop_past_end (year_fuel fuel : nat) :
  forall (fips_index year_index : Z) (fips_frames : list (option DataFrame))
         (tr : trace) (frames : list (option DataFrame)) (tr1 : trace),
    range_len years <= year_index ->
    fips_loop pd us API_KEY post fips_interval year_interval fips_codes years
              year_fuel fuel fips_index year_index fips_frames tr
    = Done (frames, tr1) ->
    frames_of frames = frames_of fips_frames.
Proof.
  induction fuel as [|fuel IH]; intros fi yi frames0 tr frames tr1 Hyi H;
    simpl in H.
  - discriminate.
  - destruct (Z.ltb_spec fi (len fips_codes)) as [Hlt|Hge].
    + destruct year_fuel as [|yf]; simpl in H; [discriminate|].
      destruct (Z.ltb_spec yi (range_len years)) as [Hl|_]; [lia|].
      simpl in H. apply IH in H; [|exact Hyi].
      rewrite H. unfold frames_of. rewrite flat_map_app. simpl.
      apply app_nil_r.
    + now injection H as <- <-.
Qed.

End Limits.

(** The table that the fetcher returns is [pd.concat] of one frame: the
    one that the inner loop has accumulated for the first region group.
    The later groups add nothing to it. *)
Theorem result_is_first_group_frame {DataFrame : Type}
    (pd : pandas DataFrame) (us : us_states) (API_KEY : string)
    (post : request -> response) (fips_interval year_interval : Z)
    (fuel : nat) (start_year end_year : Z) (df : DataFrame) (tr : trace) :
  0 < year_interval ->
  download_all_employment_data_with pd us API_KEY post
    fips_interval year_interval fuel start_year end_year = Done (df, tr) ->
  exists (f : DataFrame) (year_index : Z) (tr1 : trace),
    year_loop pd us API_KEY post year_interval
      {| range_start := start_year; range_stop := end_year |} fuel
      (slice (map fips (STATES us)) 0
         (Z.min (0 + fips_interval) (len (map fips (STATES us)) - 1)))
      0 None
      [Group (slice (map fips (STATES us)) 0
                (Z.min (0 + fips_interval) (len (map fips (STATES us)) - 1)))]
    = Done (year_index, Some f, tr1) /\
    concat_frames pd [f] = Ret df.
Proof.
  intros Hy H. unfold download_all_employment_data_with in H.
  destruct fuel as [|fuel0]; [discriminate|].
  cbn [fips_loop] in H.
  destruct (Z.ltb_spec 0 (len (map fips (STATES us)))) as [Hlt|Hge];
    [|discriminate].
  cbn [app] in H.
  destruct (year_loop _ _ _ _ _ _ _ _ _ _ _) as [[[yi1 f1] tr1]| |] eqn:Y;
    cbn [rbind] in H; try discriminate.
  destruct (fips_loop _ _ _ _ _ _ _ _ _ _ _ _ _ _) as [[frames tr2]| |] eqn:F;
    cbn [rbind] in H; try discriminate.
  pose proof Y as Y2.
  apply year_loop_Done in Y2; [|exact Hy|lia].
  destruct Y2 as (ws & _ & _ & L1 & _).
  apply fips_loop_past_end in F; [|exact L1].
  unfold concat in H.
  destruct frames as [|o frames]; [discriminate|].
  rewrite F in H. destruct f1 as [f|]; simpl in H; [|discriminate].
  exists f, yi1, tr1. split; [reflexivity|].
  destruct (concat_frames pd [f]) as [df1|e]; simpl in H; [|discriminate].
  now injection H as <- _.
Qed.

Lemma requests_within_limits_witness :
  Forall (fun c =>
            len (seriesid (request_of "key" (fst c)
                             (fst (snd c)) (snd (snd c))))
            <= 50 /\
            fst (snd c) <= snd (snd c) /\
            snd (snd c) - fst (snd c) + 1 <= 20)
         (calls_of (Stub.trace_of Stub.run_fifty_one)).
Proof.
  apply (requests_within_limits Stub.pd (Stub.us Stub.fifty_one) "key"
           (Stub.always Stub.ct_2008) 50 20 ltac:(lia) ltac:(lia)
           100 1991 2018
           (Stub.frame_of Stub.run_fifty_one)
           (Stub.trace_of Stub.run_fifty_one)).
  vm_compute. reflexivity.
Defined.

Lemma result_is_first_group_frame_witness :
  exists (f : Stub.frame) (year_index : Z) (tr1 : trace),
    year_loop Stub.pd (Stub.us Stub.three) "key" (Stub.always Stub.ct_2008) 20
      {| range_start := 1991; range_stop := 2018 |} 30
      (slice (map fips (STATES (Stub.us Stub.three))) 0
         (Z.min (0 + 50) (len (map fips (STATES (Stub.us Stub.three))) - 1)))
      0 None
      [Group (slice (map fips (STATES (Stub.us Stub.three))) 0
                (Z.min (0 + 50)
                       (len (map fips (STATES (Stub.us Stub.three))) - 1)))]
    = Done (year_index, Some f, tr1) /\
    concat_frames Stub.pd [f] = Ret (Stub.frame_of Stub.run_three).
Proof.
  apply (result_is_first_group_frame Stub.pd (Stub.us Stub.three) "key"
           (Stub.always Stub.ct_2008) 50 20 30 1991 2018
           (Stub.frame_of Stub.run_three) (Stub.trace_of Stub.run_three)).
  - lia.
  - vm_compute. reflexivity.
Defined.

(** ** The entry point *)

Lemma insert_sorted_perm (x : string) (l : list string) :
  Permutation (x :: l) (insert_sorted x l).
Proof.
  induction l as [|y l IH]; simpl.
  - apply Permutation_refl.
  - destruct (String.leb x y).
    + apply Permutation_refl.
    + apply perm_trans with (y :: x :: l); [apply perm_swap|].
      now apply perm_skip.
Qed.

Lemma sorted_perm (l : list string) : Permutation l (sorted l).
Proof.
  induction l as [|x l IH]; simpl.
  - apply perm_nil.
  - apply perm_trans with (x :: sorted l); [now apply perm_skip|].
    apply insert_sorted_perm.
Qed.

Lemma insert_sorted_HdRel (a x : string) (l : list string) :
  str_le a x -> HdRel str_le a l -> HdRel str_le a (insert_sorted x l).
Proof.
  intros Hax H. destruct l as [|y l]; simpl.
  - now constructor.
  - destruct (String.leb x y); constructor; [exact Hax|].
    now inversion H.
Qed.

Lemma insert_sorted_Sorted (x : string) (l : list string) :
  Sorted str_le l -> Sorted str_le (insert_sorted x l).
Proof.
  induction l as [|y l IH]; intros H; simpl.
  - repeat constructor.
  - inversion H as [|? ? Hs Hh]; subst.
    destruct (String.leb x y) eqn:E.
    + constructor; [exact H | now constructor].
    + constructor; [now apply IH|].
      apply insert_sorted_HdRel; [|exact Hh].
      destruct (String.leb_total x y) as [T|T]; [congruence | exact T].
Qed.

Lemma sorted_Sorted (l : list string) : Sorted str_le (sorted l).
Proof.
  induction l as [|x l IH]; simpl.
  - constructor.
  - now apply insert_sorted_Sorted.
Qed.

Section Main.

Context {DataFrame : Type}.
Variable pd : pandas DataFrame.
Variable out : pandas_out DataFrame.
Variable us : us_states.
Variable API_KEY : string.
Variable post : request -> response.

(** When [main] ends normally it has written one file,
    ["ALL-1991-2018.csv"], holding the table that the fetcher returned for
    1991 to 2018 with its columns put in ascending order of their labels:
    the labels asked for are sorted and are the labels of the table, each
    as often as the table has it. *)
Theorem main_writes_sorted_columns (fuel : nat)
    (files : list (string * DataFrame)) :
  main pd out us API_KEY post fuel = Done files ->
  exists (all_df df : DataFrame) (tr : trace) (labels : list string),
    download_all_employment_data pd us API_KEY post fuel 1991 2018
    = Done (all_df, tr) /\
    Sorted str_le labels /\
    Permutation (columns out all_df) labels /\
    reindex out all_df labels = Ret df /\
    files = [("ALL-1991-2018.csv", df)].
Proof.
  unfold main. intros H.
  destruct (download_all_employment_data pd us API_KEY post fuel 1991 2018)
    as [[all_df tr]| |]; simpl in H; try discriminate.
  destruct (reindex out all_df (sorted (columns out all_df))) as [df|e] eqn:R;
    simpl in H; [|discriminate].
  injection H as <-.
  exists all_df, df, tr, (sorted (columns out all_df)).
  split; [reflexivity|]. split; [apply sorted_Sorted|].
  split; [apply sorted_perm|]. split; [exact R | reflexivity].
Qed.

(** [main] writes nothing when the fetcher does not return: an exception
    of the fetcher is the exception of [main]. *)
Lemma main_propagates (fuel : nat) (e : exn) :
  download_all_employment_data pd us API_KEY post fuel 1991 2018 = Raised e ->
  main pd out us API_KEY post fuel = Raised e.
Proof.
  unfold main. intros ->. reflexivity.
Qed.

(** When the service has no data for any request, [main] raises
    [ValueError] and writes no file. *)
Theorem main_without_data_raises (fuel : nat) :
  (forall r : request, Results_series (post r) = None) ->
  Z.max (len (STATES us)) 27 < Z.of_nat fuel ->
  main pd out us API_KEY post fuel = Raised ValueError.
Proof.
  intros Hno Hf. apply main_propagates.
  unfold download_all_employment_data.
  apply download_all_without_data; [exact Hno | lia | lia | exact Hf].
Qed.

End Main.

Lemma main_without_data_raises_witness :
  main Stub.pd stub_out (Stub.us Stub.fifty_one) "key" Stub.no_data 100
  = Raised ValueError.
Proof.
  apply (main_without_data_raises Stub.pd stub_out (Stub.us Stub.fifty_one)
           "key" Stub.no_data 100).
  - intros r. reflexivity.
  - vm_compute. reflexivity.
Defined.

Lemma main_writes_sorted_columns_witness :
  exists (all_df df : Stub.frame) (tr : trace) (labels : list string),
    download_all_employment_data Stub.pd (Stub.us Stub.three) "key"
      (Stub.always Stub.ct_2008) 30 1991 2018
    = Done (all_df, tr) /\
    Sorted str_le labels /\
    Permutation (columns stub_out all_df) labels /\
    reindex stub_out all_df labels = Ret df /\
    [("ALL-1991-2018.csv",
      [("SMS09000000000000001",
        [("2008-01", Some "1700.1"); ("2008-01_chk", Some "1700.1");
         ("2008-02", Some "1699.5"); ("2008-02_chk", Some "1699.5");
         ("fips", Some "09"); ("fips_chk", Some "09");
         ("state", Some "CT"); ("state_chk", Some "CT")])])]
    = [("ALL-1991-2018.csv", df)].
Proof.
  apply (main_writes_sorted_columns Stub.pd stub_out (Stub.us Stub.three)
           "key" (Stub.always Stub.ct_2008) 30).
  vm_compute. reflexivity.
Defined.
